(** * Apex-DT: logbook scanner (JavaScript) and eligibility trigger (PL/pgSQL)

    A shallow embedding of
    - the [LogbookScanner] class of the scanner module (parsers, row
      validation, page totals, cumulative hours), and
    - the [calculate_eligibility] trigger function of [supabase-schema.sql],
    followed by the properties of the specification that concern them.

    Modelling conventions.
    - A JavaScript value that is [null], [undefined] or [NaN] is [None].
    - JavaScript strings are [string]s of 8-bit characters; [\d] is [0-9].
    - JavaScript numbers that the code only ever produces as integers
      (minutes) are [Z]; quotients of them (hours, speeds) are exact
      rationals [Q], i.e. binary64 rounding is not modelled.
    - SQL [NULL] is [None]; SQL booleans are three-valued ([option bool]);
      [DECIMAL] values are exact rationals [Q]. *)

From Stdlib Require Import ZArith QArith Qminmax List Bool Ascii String Lia.
From Stdlib Require Import DecimalString DecimalPos Permutation.
Import ListNotations.

Open Scope Z_scope.

(** [a < b] on rationals, as a test. *)
Definition Qltb (a b : Q) : bool := negb (Qle_bool b a).

(* ================================================================== *)
(** ** Characters, digits, [parseInt] *)
(* ================================================================== *)

Module JSString.

Open Scope string_scope.
Open Scope Z_scope.

(** [\d] *)
Definition is_digit (c : ascii) : bool :=
  let n := nat_of_ascii c in (48 <=? n)%nat && (n <=? 57)%nat.

Definition digit_value (c : ascii) : Z := Z.of_nat (nat_of_ascii c) - 48.

(** [[:\.]] *)
Definition is_time_sep (c : ascii) : bool :=
  Ascii.eqb c ":" || Ascii.eqb c ".".

(** [[\/\-\.]] *)
Definition is_date_sep (c : ascii) : bool :=
  Ascii.eqb c "/" || Ascii.eqb c "-" || Ascii.eqb c ".".

(** White space skipped by [parseInt]: TAB, LF, VT, FF, CR, SP. *)
Definition is_space (c : ascii) : bool :=
  let n := nat_of_ascii c in
  ((9 <=? n)%nat && (n <=? 13)%nat) || (n =? 32)%nat.

(** Value of a string of decimal digits, most significant first. *)
Fixpoint digits_value_from (acc : Z) (s : string) : Z :=
  match s with
  | EmptyString => acc
  | String c t => digits_value_from (acc * 10 + digit_value c) t
  end.

Definition digits_value (s : string) : Z := digits_value_from 0 s.

(** Longest prefix of digits, and what follows it. *)
Fixpoint span_digits (s : string) : string * string :=
  match s with
  | EmptyString => (EmptyString, EmptyString)
  | String c t =>
      if is_digit c
      then let (ds, rest) := span_digits t in (String c ds, rest)
      else (EmptyString, s)
  end.

Fixpoint skip_spaces (s : string) : string :=
  match s with
  | EmptyString => EmptyString
  | String c t => if is_space c then skip_spaces t else s
  end.

(** [parseInt(s, 10)]: leading white space, an optional sign, then the
    longest run of digits; [NaN] when that run is empty. *)
Definition parseInt (s : string) : option Z :=
  let s1 := skip_spaces s in
  let (sign, s2) :=
    match s1 with
    | String c t =>
        if Ascii.eqb c "-" then (-1, t)
        else if Ascii.eqb c "+" then (1, t)
        else (1, s1)
    | EmptyString => (1, s1)
    end in
  let (ds, _) := span_digits s2 in
  match ds with
  | EmptyString => None
  | _ => Some (sign * digits_value ds)
  end.

(** [s.split(/[\/\-\.]/)]: the pieces between separators, empty pieces
    included. *)
Fixpoint split_date (s : string) : list string :=
  match s with
  | EmptyString => [EmptyString]
  | String c t =>
      if is_date_sep c then EmptyString :: split_date t
      else
        match split_date t with
        | [] => [String c EmptyString]
        | p :: ps => String c p :: ps
        end
  end.

(** [`${n}`] for an integer. *)
Definition toString (n : Z) : string := NilZero.string_of_int (Z.to_int n).

(** [s.padStart(2, '0')] *)
Definition padStart2 (s : string) : string :=
  match s with
  | EmptyString => "00"
  | String c EmptyString => String "0" s
  | _ => s
  end.

(** Truthiness of a string-or-null value: [null] and [''] are falsy. *)
Definition truthy_str (v : option string) : bool :=
  match v with
  | None => false
  | Some EmptyString => false
  | Some _ => true
  end.

(** [v === lit] for a string-or-null value [v]. *)
Definition str_is (v : option string) (lit : string) : bool :=
  match v with
  | Some s => String.eqb s lit
  | None => false
  end.

End JSString.

(* ================================================================== *)
(** ** The part of [Date] that [parseDate] and [validateEntries] use *)
(* ================================================================== *)

Module JSDate.

Definition msPerDay : Z := 86400000.

(** ECMAScript [DayFromYear]. *)
Definition DayFromYear (y : Z) : Z :=
  365 * (y - 1970) + (y - 1969) / 4 - (y - 1901) / 100 + (y - 1601) / 400.

Definition InLeapYear (y : Z) : bool :=
  ((y mod 4 =? 0) && negb (y mod 100 =? 0)) || (y mod 400 =? 0).

(** Day within the year on which month [mn] (0-based) starts. *)
Definition month_start (leap : bool) (mn : Z) : Z :=
  let l := if leap then 1 else 0 in
  match mn with
  | 0 => 0
  | 1 => 31
  | 2 => 59 + l
  | 3 => 90 + l
  | 4 => 120 + l
  | 5 => 151 + l
  | 6 => 181 + l
  | 7 => 212 + l
  | 8 => 243 + l
  | 9 => 273 + l
  | 10 => 304 + l
  | _ => 334 + l
  end.

(** ECMAScript [MakeDay(year, month, date)]: months and days outside their
    calendar range carry over into the neighbouring months and years. *)
Definition MakeDay (year month date : Z) : Z :=
  let ym := year + month / 12 in
  let mn := month mod 12 in
  DayFromYear ym + month_start (InLeapYear ym) mn + date - 1.

(** ECMAScript [TimeClip]. *)
Definition TimeClip (t : Z) : option Z :=
  if Z.abs t <=? 8640000000000000 then Some t else None.

(** [new Date(year, month, day)] in a host whose local time is
    [tza] milliseconds ahead of UTC.  The result is the time value, [None]
    for an Invalid Date.  A year in 0..99 means 1900 + year. *)
Definition new_Date (tza : Z) (year month day : option Z) : option Z :=
  match year, month, day with
  | Some y, Some m, Some d =>
      let yr := if (0 <=? y) && (y <=? 99) then 1900 + y else y in
      TimeClip (MakeDay yr m d * msPerDay - tza)
  | _, _, _ => None
  end.

(** [d.setHours(23, 59, 59, 999)] on a valid time value. *)
Definition setHours_end_of_day (tza t : Z) : Z :=
  ((t + tza) / msPerDay) * msPerDay + 86399999 - tza.

(** [new Date('2020-01-01')]: a date-only ISO string is UTC midnight. *)
Definition date_2020_01_01 : Z := MakeDay 2020 0 1 * msPerDay.

End JSDate.

(* ================================================================== *)
(** ** [LogbookScanner]: parsers *)
(* ================================================================== *)

Module Scanner.

Import JSString JSDate.
Open Scope string_scope.
Open Scope Z_scope.

(** The host the scanner runs in: the offset of local time from UTC, taken
    as constant, and the time value [new Date()] returns, both in
    milliseconds. *)
Record host := {
  LocalTZA : Z;
  now : Z
}.

(** [this.validationRules] *)
Definition maxSessionHours : Z := 2.
Definition minSessionMinutes : Z := 5.
Definition maxDailyHours : Z := 8.
Definition earliestDate : Z := date_2020_01_01.

(** *** [parseDate] *)

Definition parseDate (tza : Z) (dateStr : option string) : option Z :=
  if negb (truthy_str dateStr) then None else
  match dateStr with
  | None => None
  | Some s =>
      match split_date s with
      | [p0; p1; p2] =>
          let day := parseInt p0 in
          let month := option_map (fun m => m - 1) (parseInt p1) in
          let year := parseInt p2 in
          let fullYear :=
            option_map
              (fun y => if y <? 100
                        then (if y >? 50 then 1900 + y else 2000 + y)
                        else y) year in
          new_Date tza fullYear month day
      | _ => None
      end
  end.

(** *** [parseTime]: the regular expression [(\d{1,2})[:\.](\d{2})] *)

(** A match that starts at the head of [s] with a two-digit first group. *)
Definition time_match_2 (s : string) : option (string * string) :=
  match s with
  | String h1 (String h2 (String p (String m1 (String m2 _)))) =>
      if is_digit h1 && is_digit h2 && is_time_sep p
         && is_digit m1 && is_digit m2
      then Some (String h1 (String h2 ""), String m1 (String m2 ""))
      else None
  | _ => None
  end.

(** A match that starts at the head of [s] with a one-digit first group. *)
Definition time_match_1 (s : string) : option (string * string) :=
  match s with
  | String h1 (String p (String m1 (String m2 _))) =>
      if is_digit h1 && is_time_sep p && is_digit m1 && is_digit m2
      then Some (String h1 "", String m1 (String m2 ""))
      else None
  | _ => None
  end.

(** The quantifier [{1,2}] is greedy: two digits are tried first. *)
Definition time_match_here (s : string) : option (string * string) :=
  match time_match_2 s with
  | Some r => Some r
  | None => time_match_1 s
  end.

(** [str.match(re)] without the [g] flag: the leftmost match. *)
Fixpoint time_search (s : string) : option (string * string) :=
  match s with
  | EmptyString => None
  | String _ t =>
      match time_match_here s with
      | Some r => Some r
      | None => time_search t
      end
  end.

Definition parseTime (timeStr : option string) : option Z :=
  if negb (truthy_str timeStr) then None else
  match timeStr with
  | None => None
  | Some s =>
      match time_search s with
      | Some (g1, g2) =>
          match parseInt g1, parseInt g2 with
          | Some hours, Some minutes =>
              if (hours >=? 0) && (hours <=? 23)
                 && (minutes >=? 0) && (minutes <=? 59)
              then Some (hours * 60 + minutes)
              else None
          | _, _ => None
          end
      | None => None
      end
  end.

(** *** [parseDuration] *)

(** [(\d+)[:\.](\d{2})] at the head of [s].  [\d+] is greedy, and giving
    digits back cannot help: the character after a shorter run is a digit,
    not a separator. *)
Definition colon_match_here (s : string) : option (string * string) :=
  let (ds, rest) := span_digits s in
  match ds, rest with
  | String _ _, String p (String m1 (String m2 _)) =>
      if is_time_sep p && is_digit m1 && is_digit m2
      then Some (ds, String m1 (String m2 ""))
      else None
  | _, _ => None
  end.

Fixpoint colon_search (s : string) : option (string * string) :=
  match s with
  | EmptyString => None
  | String _ t =>
      match colon_match_here s with
      | Some r => Some r
      | None => colon_search t
      end
  end.

(** The pattern [\d+\.?\d*] (one capture group around it) at the head of
    [s]: integer digits and, after an optional point, fraction digits. *)
Definition decimal_match_here (s : string) : option (string * string) :=
  let (ip, rest) := span_digits s in
  match ip with
  | EmptyString => None
  | _ =>
      match rest with
      | String c t =>
          if Ascii.eqb c "." then Some (ip, fst (span_digits t))
          else Some (ip, "")
      | EmptyString => Some (ip, "")
      end
  end.

Fixpoint decimal_search (s : string) : option (string * string) :=
  match s with
  | EmptyString => None
  | String _ t =>
      match decimal_match_here s with
      | Some r => Some r
      | None => decimal_search t
      end
  end.

(** [Math.round(parseFloat(ip.fp) * 60)]: the exact decimal times 60,
    rounded to the nearest integer, halves upwards. *)
Definition round_hours_to_minutes (ip fp : string) : Z :=
  let scale := 10 ^ Z.of_nat (String.length fp) in
  let mantissa := digits_value ip * scale + digits_value fp in
  (2 * 60 * mantissa + scale) / (2 * scale).

Definition parseDuration (durationStr : option string) : option Z :=
  if negb (truthy_str durationStr) then None else
  match durationStr with
  | None => None
  | Some s =>
      match colon_search s with
      | Some (g1, g2) =>
          match parseInt g1, parseInt g2 with
          | Some h, Some m => Some (h * 60 + m)
          | _, _ => None
          end
      | None =>
          match decimal_search s with
          | Some (ip, fp) => Some (round_hours_to_minutes ip fp)
          | None => None
          end
      end
  end.

(** *** [formatDuration] *)

Definition formatDuration (minutes : option Z) : string :=
  match minutes with
  | None => "--:--"
  | Some mins =>
      let h := mins / 60 in
      let m := Z.rem mins 60 in
      toString h ++ ":" ++ padStart2 (toString m)
  end.

(* ================================================================== *)
(** ** [LogbookScanner.validateEntries] *)
(* ================================================================== *)

(** One element of [extractionResult.entries]. *)
Record LogbookEntry := {
  rowNumber : option Z;
  date : option string;
  weather : option string;
  supervisorName : option string;
  licenceNumber : option string;
  startTime : option string;
  finishTime : option string;
  totalTime : option string;
  hasSignature : bool;
  odometerStart : option Q;
  odometerFinish : option Q;
  confidence : option string;
  notes : option string
}.

Record ExtractionResult := {
  x_pageType : option string;
  x_pageNumber : option Z;
  x_entries : list LogbookEntry;
  subtotal : option string;
  x_pageNotes : option string
}.

(** The [message] of an error or warning, with the values its template
    literal interpolates. *)
Inductive message :=
| DateUnclear
| TimeUnclear
| TotalTimeUnclear
| InvalidDateFormat (text : string)
| DateInFuture
| DateUnusuallyOld
| InvalidStartTime (text : string)
| InvalidFinishTime (text : string)
| SessionTooShort (mins : Z)
| SessionOverMax (mins : Z)
| TimeMismatch (recorded calculated : Z)
| SignatureMissing
| OdometerFinishLessThanStart
| HighAverageSpeed (avgSpeed : Q)
| LowConfidence
| SubtotalMismatch (declared formatted : string).

(** [{ field: ..., message: ... }] *)
Record issue := {
  field : string;
  msg : message
}.

(** [entryErrors] and [entryWarnings] of the loop body, newest last. *)
Record rowlog := {
  entryErrors : list issue;
  entryWarnings : list issue
}.

Definition push_error (i : issue) (l : rowlog) : rowlog :=
  {| entryErrors := (entryErrors l ++ [i])%list;
     entryWarnings := entryWarnings l |}.

Definition push_warning (i : issue) (l : rowlog) : rowlog :=
  {| entryErrors := entryErrors l;
     entryWarnings := (entryWarnings l ++ [i])%list |}.

(** Truthiness of a number-or-null value: [null] and [0] are falsy. *)
Definition truthy_num (v : option Q) : bool :=
  match v with
  | Some q => negb (Qeq_bool q 0)
  | None => false
  end.

Definition truthy_int (v : option Z) : bool :=
  match v with
  | Some n => negb (n =? 0)
  | None => false
  end.

(** [a || b] on integer-or-null values. *)
Definition js_or (a b : option Z) : option Z :=
  if truthy_int a then a else b.

(** Step 1: unclear or missing data. *)
Definition check_unclear (e : LogbookEntry) (l : rowlog) : rowlog :=
  let l :=
    if str_is (date e) "UNCLEAR"
    then push_error {| field := "date"; msg := DateUnclear |} l else l in
  let l :=
    if str_is (startTime e) "UNCLEAR" || str_is (finishTime e) "UNCLEAR"
    then push_error {| field := "time"; msg := TimeUnclear |} l else l in
  if str_is (totalTime e) "UNCLEAR"
  then push_warning {| field := "totalTime"; msg := TotalTimeUnclear |} l
  else l.

(** Step 2: parse and validate the date; yields [parsedDate]. *)
Definition check_date (tza today : Z) (e : LogbookEntry) (l : rowlog)
  : option Z * rowlog :=
  if truthy_str (date e) && negb (str_is (date e) "UNCLEAR") then
    let parsedDate := parseDate tza (date e) in
    match parsedDate with
    | None =>
        (parsedDate,
         push_error {| field := "date";
                       msg := InvalidDateFormat
                                (match date e with Some s => s | None => "" end) |} l)
    | Some d =>
        if d >? today then
          (parsedDate, push_error {| field := "date"; msg := DateInFuture |} l)
        else if d <? earliestDate then
          (parsedDate,
           push_warning {| field := "date"; msg := DateUnusuallyOld |} l)
        else (parsedDate, l)
    end
  else (None, l).

(** Step 3: parse one time endpoint. *)
Definition check_time (fld : string) (bad : string -> message)
  (t : option string) (l : rowlog) : option Z * rowlog :=
  if truthy_str t && negb (str_is t "UNCLEAR") then
    let minutes := parseTime t in
    match minutes with
    | None =>
        (minutes,
         push_error {| field := fld;
                       msg := bad (match t with Some s => s | None => "" end) |} l)
    | Some _ => (minutes, l)
    end
  else (None, l).

(** Step 4: the duration between the endpoints, its bounds, and the
    comparison with the recorded total.  Yields [calculatedDuration] and the
    running [totalMinutes] of the page. *)
Definition check_duration (e : LogbookEntry) (startMinutes finishMinutes : option Z)
  (totalMinutes : Z) (l : rowlog) : option Z * Z * rowlog :=
  match startMinutes, finishMinutes with
  | Some st, Some fi =>
      let fi := if fi <? st then fi + 24 * 60 else fi in
      let calculatedDuration := fi - st in
      let l :=
        if calculatedDuration <? minSessionMinutes
        then push_error {| field := "duration";
                           msg := SessionTooShort calculatedDuration |} l
        else l in
      let l :=
        if calculatedDuration >? maxSessionHours * 60
        then push_warning {| field := "duration";
                             msg := SessionOverMax calculatedDuration |} l
        else l in
      let l :=
        if truthy_str (totalTime e) && negb (str_is (totalTime e) "UNCLEAR")
        then
          match parseDuration (totalTime e) with
          | Some recordedMinutes =>
              let diff := Z.abs (calculatedDuration - recordedMinutes) in
              if diff >? 5
              then push_error
                     {| field := "totalTime";
                        msg := TimeMismatch recordedMinutes calculatedDuration |} l
              else l
          | None => l
          end
        else l in
      (Some calculatedDuration, totalMinutes + calculatedDuration, l)
  | _, _ => (None, totalMinutes, l)
  end.

(** Step 5: signature. *)
Definition check_signature (e : LogbookEntry) (l : rowlog) : rowlog :=
  if negb (hasSignature e)
  then push_warning {| field := "signature"; msg := SignatureMissing |} l
  else l.

(** Step 6: odometer, "if both present". *)
Definition check_odometer (e : LogbookEntry) (calculatedDuration : option Z)
  (l : rowlog) : rowlog :=
  if truthy_num (odometerStart e) && truthy_num (odometerFinish e) then
    match odometerStart e, odometerFinish e with
    | Some os, Some ofi =>
        let distance := (ofi - os)%Q in
        if Qltb distance 0 then
          push_error {| field := "odometer";
                        msg := OdometerFinishLessThanStart |} l
        else if Qltb 200 distance && truthy_int calculatedDuration then
          match calculatedDuration with
          | Some cd =>
              let avgSpeed := (distance / (inject_Z cd / 60))%Q in
              if Qltb 100 avgSpeed
              then push_warning {| field := "odometer";
                                   msg := HighAverageSpeed avgSpeed |} l
              else l
          | None => l
          end
        else l
    | _, _ => l
    end
  else l.

(** Step 7: low confidence. *)
Definition check_confidence (e : LogbookEntry) (l : rowlog) : rowlog :=
  if str_is (confidence e) "low"
  then push_warning {| field := "general"; msg := LowConfidence |} l
  else l.

(** An element of the [entries] of a scan result: the extracted entry
    (the spread [...entry]) and what validation adds to it. *)
Record ValidatedEntry := {
  entry : LogbookEntry;
  parsedDate : option Z;
  calculatedDuration : option Z;
  durationMinutes : option Z;
  errors : list issue;
  warnings : list issue;
  isValid : bool
}.

(** The body of the [for] loop for one entry: the validated entry and the
    new running [totalMinutes]. *)
Definition validateEntry (tza today : Z) (e : LogbookEntry) (totalMinutes : Z)
  : ValidatedEntry * Z :=
  let l := {| entryErrors := []; entryWarnings := [] |} in
  let l := check_unclear e l in
  let '(parsedDate, l) := check_date tza today e l in
  let '(startMinutes, l) :=
    check_time "startTime" InvalidStartTime (startTime e) l in
  let '(finishMinutes, l) :=
    check_time "finishTime" InvalidFinishTime (finishTime e) l in
  let '(calculatedDuration, totalMinutes, l) :=
    check_duration e startMinutes finishMinutes totalMinutes l in
  let l := check_signature e l in
  let l := check_odometer e calculatedDuration l in
  let l := check_confidence e l in
  ({| entry := e;
      parsedDate := parsedDate;
      calculatedDuration := calculatedDuration;
      durationMinutes :=
        js_or calculatedDuration (parseDuration (totalTime e));
      errors := entryErrors l;
      warnings := entryWarnings l;
      isValid := (List.length (entryErrors l) =? 0)%nat |},
   totalMinutes).

(** *** The page: [validateEntries] *)

(** [this.pageTypes]: the entries of the configuration table that carry
    meaning for the computation. *)
Record PageTypeConfig := {
  name : string;
  creditMultiplier : Z
}.

Definition BLUE_DAY : PageTypeConfig :=
  {| name := "Supervised Day"; creditMultiplier := 1 |}.
Definition RED_NIGHT : PageTypeConfig :=
  {| name := "Supervised Night"; creditMultiplier := 1 |}.
Definition GREEN_ADI : PageTypeConfig :=
  {| name := "ADI Professional"; creditMultiplier := 3 |}.
Definition ADI_STAMP : PageTypeConfig :=
  {| name := "ADI Stamp Page"; creditMultiplier := 3 |}.

Definition pageTypes (key : option string) : option PageTypeConfig :=
  if str_is key "BLUE_DAY" then Some BLUE_DAY
  else if str_is key "RED_NIGHT" then Some RED_NIGHT
  else if str_is key "GREEN_ADI" then Some GREEN_ADI
  else if str_is key "ADI_STAMP" then Some ADI_STAMP
  else None.

(** The [row] of a page-level error or warning: [entry.rowNumber], or the
    string ['subtotal']. *)
Inductive rowref :=
| Row (n : option Z)
| SubtotalRow.

Record Totals := {
  t_entries : nat;
  validEntries : nat;
  totalMinutes : Z;
  totalHours : Q;
  formattedTotal : string
}.

Record PageScanResult := {
  success : bool;
  pageType : option string;
  pageTypeInfo : PageTypeConfig;
  pageNumber : option Z;
  entries : list ValidatedEntry;
  totals : Totals;
  scan_errors : list (rowref * issue);
  scan_warnings : list (rowref * issue);
  hasErrors : bool;
  hasWarnings : bool;
  pageNotes : option string
}.

(** The variables the [for] loop of [validateEntries] updates. *)
Record scanstate := {
  st_errors : list (rowref * issue);
  st_warnings : list (rowref * issue);
  st_validatedEntries : list ValidatedEntry;
  st_totalMinutes : Z
}.

Definition scan_init : scanstate :=
  {| st_errors := []; st_warnings := [];
     st_validatedEntries := []; st_totalMinutes := 0 |}.

Definition scan_step (tza today : Z) (st : scanstate) (e : LogbookEntry)
  : scanstate :=
  let '(v, total) := validateEntry tza today e (st_totalMinutes st) in
  {| st_errors :=
       (st_errors st ++ map (fun i => (Row (rowNumber e), i)) (errors v))%list;
     st_warnings :=
       (st_warnings st ++ map (fun i => (Row (rowNumber e), i)) (warnings v))%list;
     st_validatedEntries := (st_validatedEntries st ++ [v])%list;
     st_totalMinutes := total |}.

Definition nonempty {A} (l : list A) : bool := (0 <? List.length l)%nat.

Definition validateEntries (h : host) (extractionResult : ExtractionResult)
  : PageScanResult :=
  let today := setHours_end_of_day (LocalTZA h) (now h) in
  let st :=
    fold_left (scan_step (LocalTZA h) today) (x_entries extractionResult)
              scan_init in
  let pageTypeConfig :=
    match pageTypes (x_pageType extractionResult) with
    | Some c => c
    | None => BLUE_DAY
    end in
  let tot :=
    {| t_entries := List.length (st_validatedEntries st);
       validEntries := List.length (filter isValid (st_validatedEntries st));
       totalMinutes := st_totalMinutes st;
       totalHours := (inject_Z (st_totalMinutes st) / 60)%Q;
       formattedTotal := formatDuration (Some (st_totalMinutes st)) |} in
  let warns :=
    if truthy_str (subtotal extractionResult) then
      match parseDuration (subtotal extractionResult) with
      | Some pageSubtotalMinutes =>
          let diff := Z.abs (st_totalMinutes st - pageSubtotalMinutes) in
          if diff >? 5 then
            (st_warnings st ++
             [(SubtotalRow,
               {| field := "subtotal";
                  msg := SubtotalMismatch
                           (match subtotal extractionResult with
                            | Some t => t | None => "" end)
                           (formattedTotal tot) |})])%list
          else st_warnings st
      | None => st_warnings st
      end
    else st_warnings st in
  {| success := true;
     pageType := x_pageType extractionResult;
     pageTypeInfo := pageTypeConfig;
     pageNumber := x_pageNumber extractionResult;
     entries := st_validatedEntries st;
     totals := tot;
     scan_errors := st_errors st;
     scan_warnings := warns;
     hasErrors := nonempty (st_errors st);
     hasWarnings := nonempty warns;
     pageNotes := x_pageNotes extractionResult |}.

(** *** Across pages: [calculateCumulativeHours] *)

Record Supervised := {
  dayHours : Q;
  nightHours : Q;
  sup_totalHours : Q
}.

Record Adi := {
  adi_actualHours : Q;
  creditHours : Q;
  first10Credit : Q;
  extraCredit : Q
}.

Record GrandTotal := {
  actualHours : Q;
  creditedHours : Q
}.

Record Validation := {
  totalEntries : nat;
  errorCount : nat;
  warningCount : nat
}.

Record CumulativeHours := {
  supervised : Supervised;
  adi : Adi;
  grandTotal : GrandTotal;
  validation : Validation
}.

(** The object [totals] that the loop of [calculateCumulativeHours]
    updates. *)
Record cumstate := {
  blueDayMinutes : Z;
  redNightMinutes : Z;
  greenAdiMinutes : Z;
  adiStampMinutes : Z;
  allEntries : list ValidatedEntry;
  c_errorCount : nat;
  c_warningCount : nat
}.

Definition cum_init : cumstate :=
  {| blueDayMinutes := 0; redNightMinutes := 0; greenAdiMinutes := 0;
     adiStampMinutes := 0; allEntries := [];
     c_errorCount := 0; c_warningCount := 0 |}.

(** [validEntries.reduce((sum, e) => sum + (e.durationMinutes || 0), 0)] *)
Definition sum_durations (validEntries : list ValidatedEntry) : Z :=
  fold_left
    (fun sum e =>
       sum + match js_or (durationMinutes e) (Some 0) with
             | Some d => d
             | None => 0
             end)
    validEntries 0.

Definition cum_step (t : cumstate) (scan : PageScanResult) : cumstate :=
  let valid := filter isValid (entries scan) in
  let '(blue, red, green) :=
    if str_is (pageType scan) "BLUE_DAY" then
      (blueDayMinutes t + sum_durations valid, redNightMinutes t,
       greenAdiMinutes t)
    else if str_is (pageType scan) "RED_NIGHT" then
      (blueDayMinutes t, redNightMinutes t + sum_durations valid,
       greenAdiMinutes t)
    else if str_is (pageType scan) "GREEN_ADI"
            || str_is (pageType scan) "ADI_STAMP" then
      (blueDayMinutes t, redNightMinutes t,
       greenAdiMinutes t + sum_durations valid)
    else (blueDayMinutes t, redNightMinutes t, greenAdiMinutes t) in
  {| blueDayMinutes := blue;
     redNightMinutes := red;
     greenAdiMinutes := green;
     adiStampMinutes := adiStampMinutes t;
     allEntries := (allEntries t ++ entries scan)%list;
     c_errorCount := (c_errorCount t + List.length (scan_errors scan))%nat;
     c_warningCount := (c_warningCount t + List.length (scan_warnings scan))%nat |}.

Definition calculateCumulativeHours (scanResults : list PageScanResult)
  : CumulativeHours :=
  let t := fold_left cum_step scanResults cum_init in
  let adiActualHours := (inject_Z (greenAdiMinutes t) / 60)%Q in
  let adiFirst10Credit := (Qmin adiActualHours 10 * 3)%Q in
  let adiExtraCredit := Qmax 0 (adiActualHours - 10)%Q in
  let adiTotalCredit := (adiFirst10Credit + adiExtraCredit)%Q in
  {| supervised :=
       {| dayHours := (inject_Z (blueDayMinutes t) / 60)%Q;
          nightHours := (inject_Z (redNightMinutes t) / 60)%Q;
          sup_totalHours :=
            (inject_Z (blueDayMinutes t + redNightMinutes t) / 60)%Q |};
     adi :=
       {| adi_actualHours := adiActualHours;
          creditHours := adiTotalCredit;
          first10Credit := adiFirst10Credit;
          extraCredit := adiExtraCredit |};
     grandTotal :=
       {| actualHours :=
            (inject_Z (blueDayMinutes t + redNightMinutes t + greenAdiMinutes t)
             / 60)%Q;
          creditedHours :=
            (inject_Z (blueDayMinutes t + redNightMinutes t) / 60
             + adiTotalCredit)%Q |};
     validation :=
       {| totalEntries := List.length (allEntries t);
          errorCount := c_errorCount t;
          warningCount := c_warningCount t |} |}.

End Scanner.

(* ================================================================== *)
(** ** [calculate_eligibility], the trigger on [students] *)
(* ================================================================== *)

Module Eligibility.

Open Scope Z_scope.

Inductive pathway_type := P1_RED | P2_GREEN.

Inductive eligibility_status :=
| ELIGIBLE
| NOT_ELIGIBLE
| PENDING_HOURS
| PENDING_TENURE
| PENDING_ASSESSMENTS.

(** *** SQL values *)

(** A [DATE], by its calendar fields. *)
Record sqldate := {
  year : Z;
  month : Z;
  day : Z
}.

Definition date_lt (a b : sqldate) : bool :=
  (year a <? year b)
  || ((year a =? year b)
      && ((month a <? month b)
          || ((month a =? month b) && (day a <? day b)))).

Definition date_ge (a b : sqldate) : bool := negb (date_lt a b).

Definition isleap (y : Z) : bool :=
  (y mod 4 =? 0) && (negb (y mod 100 =? 0) || (y mod 400 =? 0)).

Definition day_tab (leap : bool) (m : Z) : Z :=
  match m with
  | 2 => if leap then 29 else 28
  | 4 | 6 | 9 | 11 => 30
  | _ => 31
  end.

(** [d + n months] as PostgreSQL adds an interval of months to a date: the
    month and year move, and a day past the end of the new month becomes
    its last day. *)
Definition add_months (d : sqldate) (n : Z) : sqldate :=
  let total := month d - 1 + n in
  let y := year d + total / 12 in
  let m := total mod 12 + 1 in
  let last := day_tab (isleap y) m in
  {| year := y; month := m; day := if day d >? last then last else day d |}.

(** [EXTRACT(YEAR FROM AGE(d1, d2))]: the field-wise difference, negated
    when [d1] is before [d2], with a negative day borrowing a month and a
    negative month borrowing a year (one borrow suffices for calendar
    dates), and the sign restored. *)
Definition age_years (d1 d2 : sqldate) : Z :=
  let flip := date_lt d1 d2 in
  let sgn (v : Z) := if flip then - v else v in
  let dy := sgn (year d1 - year d2) in
  let dm := sgn (month d1 - month d2) in
  let dd := sgn (day d1 - day d2) in
  let dm := if dd <? 0 then dm - 1 else dm in
  let dy := if dm <? 0 then dy - 1 else dy in
  sgn dy.

(** [COALESCE(v, d)] *)
Definition COALESCE {A} (v : option A) (d : A) : A :=
  match v with
  | Some x => x
  | None => d
  end.

(** Three-valued logic. *)
Definition sql_and (a b : option bool) : option bool :=
  match a, b with
  | Some false, _ | _, Some false => Some false
  | Some true, Some true => Some true
  | _, _ => None
  end.

Definition sql_or (a b : option bool) : option bool :=
  match a, b with
  | Some true, _ | _, Some true => Some true
  | Some false, Some false => Some false
  | _, _ => None
  end.

(** [v = b] for a nullable boolean [v] and a literal [b]. *)
Definition sql_eq_bool (v : option bool) (b : bool) : option bool :=
  option_map (Bool.eqb b) v.

Definition IS_NULL {A} (v : option A) : bool :=
  match v with
  | Some _ => false
  | None => true
  end.

(** A condition of [IF] or [CASE WHEN] holds only when it is [TRUE]. *)
Definition holds (c : option bool) : bool :=
  match c with
  | Some true => true
  | _ => false
  end.

(** *** The row *)

(** The columns of [students] that the trigger reads or writes. *)
Record students := {
  date_of_birth : option sqldate;
  licence_expiry_date : option sqldate;
  licence_issue_date : option sqldate;
  age_at_issue : option Z;
  pathway : option pathway_type;
  supervised_hours : option Q;
  professional_hours : option Q;
  night_hours : option Q;
  safer_driver_credit : option bool;
  vru_credit : option bool;
  first_aid_credit : option bool;
  total_hours : option Q;
  hours_required : option Z;
  hours_remaining : option Q;
  cbta_completed : option bool;
  assessment_1_22_completed : option bool;
  tenure_start_date : option sqldate;
  tenure_months_required : option Z;
  earliest_eligible_date : option sqldate;
  status : option eligibility_status;
  final_drive_completed_at : option sqldate;
  data_retention_until : option sqldate;
  updated_at : option Z
}.

(** What the trigger reads from its session: [CURRENT_DATE] and [NOW()]. *)
Record session := {
  CURRENT_DATE : sqldate;
  NOW : Z
}.

(** The local variables of the trigger that are still in use when the
    status is decided. *)
Record locals := {
  v_issue_date : option sqldate;
  v_age_at_issue : option Z;
  v_is_under_25 : option bool;
  v_hours_req : option Z;
  v_night_req : Z;
  v_tenure_req : option Z;
  v_prof_credit : Q;
  v_total_hrs : Q
}.

(** [CASE WHEN flag THEN hours ELSE 0 END] *)
Definition credit (flag : option bool) (hours : Q) : Q :=
  if holds flag then hours else 0%Q.

(** The body of [calculate_eligibility], statement by statement.  A name
    with a prime is the column of [NEW] after its assignment.  The result
    is the row the trigger returns, with the local variables.

    Assignment to a column keeps the value as it is: the range check of
    [DECIMAL(6,2)] columns on assignment is not modelled. *)
Definition calculate_eligibility_body (s : session) (NEW : students)
  : students * locals :=
  (* issue date from expiry: a 5-year licence *)
  let v_issue_date' :=
    match licence_expiry_date NEW with
    | Some expiry => Some (add_months expiry (- (5 * 12)))
    | None => None
    end in
  let licence_issue_date' :=
    match licence_expiry_date NEW with
    | Some _ => v_issue_date'
    | None => licence_issue_date NEW
    end in
  (* age at issue, pathway and its requirements: the block runs when
     both dates are there, and otherwise leaves columns and variables as
     they were *)
  let v_age_at_issue' :=
    match date_of_birth NEW, licence_issue_date' with
    | Some dob, Some issue => Some (age_years issue dob)
    | _, _ => None
    end in
  let v_is_under_25' := option_map (fun age => age <? 25) v_age_at_issue' in
  let v_hours_req' :=
    option_map (fun under : bool => if under then 100 else 50) v_is_under_25' in
  let v_night_req0 :=
    option_map (fun under : bool => if under then 10 else 5) v_is_under_25' in
  let v_tenure_req' :=
    option_map (fun under : bool => if under then 12 else 6) v_is_under_25' in
  let age_at_issue' :=
    match v_age_at_issue' with
    | Some age => Some age
    | None => age_at_issue NEW
    end in
  let pathway' :=
    match v_is_under_25' with
    | Some under => Some (if under then P1_RED else P2_GREEN)
    | None => pathway NEW
    end in
  let hours_required' :=
    match v_hours_req' with
    | Some req => Some req
    | None => hours_required NEW
    end in
  let tenure_months_required' :=
    match v_tenure_req' with
    | Some req => Some req
    | None => tenure_months_required NEW
    end in
  (* total hours *)
  let v_prof_credit' :=
    (Qmin (COALESCE (professional_hours NEW) 0) 10 * 3)%Q in
  let v_total_hrs' :=
    (v_prof_credit'
     + COALESCE (supervised_hours NEW) 0
     + credit (safer_driver_credit NEW) 20
     + credit (vru_credit NEW) 10
     + credit (first_aid_credit NEW) 5)%Q in
  let total_hours' := Some v_total_hrs' in
  let hours_remaining' :=
    Some (Qmax (inject_Z (COALESCE hours_required' 100%Z) - v_total_hrs') 0)%Q in
  (* earliest eligible date *)
  let earliest_eligible_date' :=
    match tenure_start_date NEW with
    | Some start =>
        Some (add_months start (COALESCE tenure_months_required' 12))
    | None => earliest_eligible_date NEW
    end in
  (* default night requirement *)
  let v_night_req' := COALESCE v_night_req0 10 in
  (* eligibility status *)
  let required := inject_Z (COALESCE hours_required' 100) in
  let status' :=
    if holds
         (sql_and (Some (Qle_bool required v_total_hrs'))
         (sql_and (Some (Qle_bool (inject_Z v_night_req')
                                  (COALESCE (night_hours NEW) 0%Q)))
         (sql_and (sql_eq_bool (cbta_completed NEW) true)
         (sql_and (sql_eq_bool (assessment_1_22_completed NEW) true)
         (sql_and (sql_or (Some (IS_NULL earliest_eligible_date'))
                          (option_map (date_ge (CURRENT_DATE s))
                                      earliest_eligible_date'))
                  (Some (COALESCE age_at_issue' 0 >=? 17)))))))
    then ELIGIBLE
    else if holds (Some (Qltb v_total_hrs' required))
    then PENDING_HOURS
    else if holds
              (sql_and (Some (negb (IS_NULL earliest_eligible_date')))
                       (option_map (date_lt (CURRENT_DATE s))
                                   earliest_eligible_date'))
    then PENDING_TENURE
    else if holds
              (sql_or (sql_eq_bool (cbta_completed NEW) false)
                      (sql_eq_bool (assessment_1_22_completed NEW) false))
    then PENDING_ASSESSMENTS
    else NOT_ELIGIBLE in
  (* data retention: 5 years after the final drive, or after creation *)
  let data_retention_until' :=
    match final_drive_completed_at NEW with
    | Some done => Some (add_months done (5 * 12))
    | None =>
        match data_retention_until NEW with
        | None => Some (add_months (CURRENT_DATE s) (5 * 12))
        | Some keep => Some keep
        end
    end in
  ({| date_of_birth := date_of_birth NEW;
      licence_expiry_date := licence_expiry_date NEW;
      licence_issue_date := licence_issue_date';
      age_at_issue := age_at_issue';
      pathway := pathway';
      supervised_hours := supervised_hours NEW;
      professional_hours := professional_hours NEW;
      night_hours := night_hours NEW;
      safer_driver_credit := safer_driver_credit NEW;
      vru_credit := vru_credit NEW;
      first_aid_credit := first_aid_credit NEW;
      total_hours := total_hours';
      hours_required := hours_required';
      hours_remaining := hours_remaining';
      cbta_completed := cbta_completed NEW;
      assessment_1_22_completed := assessment_1_22_completed NEW;
      tenure_start_date := tenure_start_date NEW;
      tenure_months_required := tenure_months_required';
      earliest_eligible_date := earliest_eligible_date';
      status := Some status';
      final_drive_completed_at := final_drive_completed_at NEW;
      data_retention_until := data_retention_until';
      updated_at := Some (NOW s) |},
   {| v_issue_date := v_issue_date';
      v_age_at_issue := v_age_at_issue';
      v_is_under_25 := v_is_under_25';
      v_hours_req := v_hours_req';
      v_night_req := v_night_req';
      v_tenure_req := v_tenure_req';
      v_prof_credit := v_prof_credit';
      v_total_hrs := v_total_hrs' |}).

(** [RETURN NEW] *)
Definition calculate_eligibility (s : session) (NEW : students) : students :=
  fst (calculate_eligibility_body s NEW).

End Eligibility.

(* ================================================================== *)
(** ** The specification's wording, auxiliary functions, sample inputs *)
(* ================================================================== *)

Module Spec.

Import JSString JSDate Scanner.
Open Scope string_scope.
Open Scope Z_scope.

(** [parse_clock_time] as the specification words it: the whole text is
    [H:MM] or [H.MM], hours in 0..23 and minutes in 0..59; anything else
    fails. *)
Definition spec_parse_clock_time (text : string) : option Z :=
  let result (hs ms : string) :=
    let hours := digits_value hs in
    let minutes := digits_value ms in
    if (hours <=? 23) && (minutes <=? 59)
    then Some (hours * 60 + minutes) else None in
  match text with
  | String h1 (String p (String m1 (String m2 ""))) =>
      if is_digit h1 && is_time_sep p && is_digit m1 && is_digit m2
      then result (String h1 "") (String m1 (String m2 ""))
      else None
  | String h1 (String h2 (String p (String m1 (String m2 "")))) =>
      if is_digit h1 && is_digit h2 && is_time_sep p
         && is_digit m1 && is_digit m2
      then result (String h1 (String h2 "")) (String m1 (String m2 ""))
      else None
  | _ => None
  end.

(** The page total as the specification words it: the sum of
    [durationMinutes] over the rows whose [isValid] is true. *)
Definition spec_page_total (rows : list ValidatedEntry) : Z :=
  fold_right
    (fun v sum =>
       (if isValid v
        then match durationMinutes v with Some d => d | None => 0 end
        else 0) + sum)
    0 rows.

(** [durationMinutes] as the specification words it: the computed duration
    whenever there is one (0 included), else the recorded duration when it
    parses, else null. *)
Definition spec_durationMinutes (v : ValidatedEntry) : option Z :=
  match calculatedDuration v with
  | Some d => Some d
  | None => parseDuration (totalTime (entry v))
  end.

(** The minutes of the professional bucket: valid rows of the pages typed
    [GREEN_ADI] or [ADI_STAMP]. *)
Definition professional_actual_minutes (scans : list PageScanResult) : Z :=
  fold_right
    (fun scan sum =>
       (if str_is (pageType scan) "GREEN_ADI"
           || str_is (pageType scan) "ADI_STAMP"
        then sum_durations (filter isValid (entries scan))
        else 0) + sum)
    0 scans.


(** *** Auxiliary functions

    What the loop body reads off one row, written as functions of the row:
    a time endpoint that is there and not the sentinel, parsed; and the
    minutes between the endpoints, a finish before the start counted as
    past midnight. *)
Definition endpoint_minutes (t : option string) : option Z :=
  if truthy_str t && negb (str_is t "UNCLEAR") then parseTime t else None.

Definition minutes_between (e : LogbookEntry) : option Z :=
  match endpoint_minutes (startTime e), endpoint_minutes (finishTime e) with
  | Some st, Some fi => Some ((if fi <? st then fi + 24 * 60 else fi) - st)
  | _, _ => None
  end.

Definition or_zero (v : option Z) : Z :=
  match v with
  | Some d => d
  | None => 0
  end.

(** Both readings truthy and the finish below the start. *)
Definition odometer_backwards (e : LogbookEntry) : bool :=
  match odometerStart e, odometerFinish e with
  | Some os, Some ofi =>
      truthy_num (Some os) && truthy_num (Some ofi) && Qltb (ofi - os) 0
  | _, _ => false
  end.

Definition no_odometer_field (es : list issue) : Prop :=
  Forall (fun i => field i <> "odometer") es.

(** The row that [validateEntries] puts in its result for the entry [e]. *)
Definition validated_row (h : host) (e : LogbookEntry) : ValidatedEntry :=
  fst (validateEntry (LocalTZA h)
                     (setHours_end_of_day (LocalTZA h) (now h)) e 0).

(** The minutes between the endpoints, summed over all rows of a page. *)
Definition minutes_of_all_rows (rows : list LogbookEntry) : Z :=
  fold_right (fun e sum => or_zero (minutes_between e) + sum) 0 rows.

(** What [parseTime] does with the two groups of a match. *)
Definition groups_value (g1 g2 : string) : option Z :=
  match parseInt g1, parseInt g2 with
  | Some hours, Some minutes =>
      if (hours >=? 0) && (hours <=? 23) && (minutes >=? 0) && (minutes <=? 59)
      then Some (hours * 60 + minutes)
      else None
  | _, _ => None
  end.

(** *** Sample inputs *)

(** A host in Brisbane (UTC+10 all year) on 1 November 2026, 09:00 local
    time. *)
Definition brisbane : host :=
  {| LocalTZA := 36000000; now := 1793487600000 |}.

Definition row (d s f t : option string) (os ofi : option Q) : LogbookEntry :=
  {| rowNumber := Some 1;
     date := d;
     weather := None;
     supervisorName := Some "A. Driver";
     licenceNumber := Some "1234567";
     startTime := s;
     finishTime := f;
     totalTime := t;
     hasSignature := true;
     odometerStart := os;
     odometerFinish := ofi;
     confidence := Some "high";
     notes := None |}.

Definition page (kind : string) (rows : list LogbookEntry) : ExtractionResult :=
  {| x_pageType := Some kind;
     x_pageNumber := Some 1;
     x_entries := rows;
     subtotal := None;
     x_pageNotes := None |}.

(** A sound one-hour row, and the same row with an illegible date. *)
Definition row_ok : LogbookEntry :=
  row (Some "5/3/24") (Some "10:00") (Some "11:00") (Some "1:00") None None.

Definition row_unclear_date : LogbookEntry :=
  row (Some "UNCLEAR") (Some "10:00") (Some "11:00") (Some "1:00") None None.

(** Start and finish at the same minute, 1:30 recorded. *)
Definition row_zero_duration : LogbookEntry :=
  row (Some "5/3/24") (Some "10:00") (Some "10:00") (Some "1:30") None None.




(** Two hours with an instructor. *)
Definition row_two_hours : LogbookEntry :=
  row (Some "5/3/24") (Some "10:00") (Some "12:00") (Some "2:00") None None.

(** Six such rows: 12 hours on one professional page. *)
Definition twelve_professional_hours : list PageScanResult :=
  [validateEntries brisbane
     (page "GREEN_ADI"
        [row_two_hours; row_two_hours; row_two_hours;
         row_two_hours; row_two_hours; row_two_hours])].

End Spec.

Module EligibilitySamples.

Import Eligibility.
Open Scope Z_scope.

Definition ymd (y m d : Z) : sqldate := {| year := y; month := m; day := d |}.

Definition first_of_november_2026 : session :=
  {| CURRENT_DATE := ymd 2026 11 1; NOW := 1793487600 |}.

(** Born June 2005, licence expiring September 2030, learner since
    October 2025; both assessments done. *)
Definition learner (supervised professional night : Q) : students :=
  {| date_of_birth := Some (ymd 2005 6 15);
     licence_expiry_date := Some (ymd 2030 9 1);
     licence_issue_date := Some (ymd 2020 1 1);
     age_at_issue := None;
     pathway := None;
     supervised_hours := Some supervised;
     professional_hours := Some professional;
     night_hours := Some night;
     safer_driver_credit := Some false;
     vru_credit := Some false;
     first_aid_credit := Some false;
     total_hours := None;
     hours_required := None;
     hours_remaining := None;
     cbta_completed := Some true;
     assessment_1_22_completed := Some true;
     tenure_start_date := Some (ymd 2025 10 1);
     tenure_months_required := None;
     earliest_eligible_date := None;
     status := None;
     final_drive_completed_at := None;
     data_retention_until := None;
     updated_at := None |}.

(** The row [r] as submitted with another [licence_issue_date]. *)
Definition submitted_with_issue_date (supplied : option sqldate) (r : students)
  : students :=
  {| date_of_birth := date_of_birth r;
     licence_expiry_date := licence_expiry_date r;
     licence_issue_date := supplied;
     age_at_issue := age_at_issue r;
     pathway := pathway r;
     supervised_hours := supervised_hours r;
     professional_hours := professional_hours r;
     night_hours := night_hours r;
     safer_driver_credit := safer_driver_credit r;
     vru_credit := vru_credit r;
     first_aid_credit := first_aid_credit r;
     total_hours := total_hours r;
     hours_required := hours_required r;
     hours_remaining := hours_remaining r;
     cbta_completed := cbta_completed r;
     assessment_1_22_completed := assessment_1_22_completed r;
     tenure_start_date := tenure_start_date r;
     tenure_months_required := tenure_months_required r;
     earliest_eligible_date := earliest_eligible_date r;
     status := status r;
     final_drive_completed_at := final_drive_completed_at r;
     data_retention_until := data_retention_until r;
     updated_at := updated_at r |}.

End EligibilitySamples.

(* ================================================================== *)
(** ** Further code: the text handling around the extraction call *)
(* ================================================================== *)

Module ScannerIO.

Import JSString.
Open Scope string_scope.
Open Scope Z_scope.

(** The suffix of [s] that starts at its first opening brace. *)
Fixpoint from_first_open (s : string) : option string :=
  match s with
  | EmptyString => None
  | String c t => if Ascii.eqb c "{" then Some s else from_first_open t
  end.

(** The longest prefix of [s] that ends in a closing brace. *)
Fixpoint upto_last_close (s : string) : option string :=
  match s with
  | EmptyString => None
  | String c t =>
      match upto_last_close t with
      | Some p => Some (String c p)
      | None => if Ascii.eqb c "}" then Some (String c "") else None
      end
  end.

(** [content.match(/\{[\s\S]*\}/)] in [extractWithClaude], group 0: the
    leftmost opening brace, then as much as possible up to a closing brace.
    [None] is the case in which the code throws 'Could not parse extraction
    result'.  The call of [JSON.parse] on the result is not modelled. *)
Definition match_json_object (content : string) : option string :=
  match from_first_open content with
  | Some s => upto_last_close s
  | None => None
  end.

(** [s.split(',')] *)
Fixpoint split_comma (s : string) : list string :=
  match s with
  | EmptyString => [EmptyString]
  | String c t =>
      if Ascii.eqb c ","
      then EmptyString :: split_comma t
      else
        match split_comma t with
        | [] => [String c EmptyString]
        | p :: ps => String c p :: ps
        end
  end.

(** [imageToBase64] on a string argument: the part of a data URL after its
    first comma (up to the next one), any other string as it is.  [None] is
    [undefined]. *)
Definition imageToBase64_of_string (image : string) : option string :=
  if String.prefix "data:" image
  then nth_error (split_comma image) 1
  else Some image.

End ScannerIO.

(* ================================================================== *)
(** ** Further code: the routing of the service worker's fetch handler *)
(* ================================================================== *)

Module ServiceWorker.

Open Scope string_scope.

Definition STATIC_ASSETS : list string :=
  [ "/";
    "/app.html";
    "/manifest.json";
    "/privacy-policy.html";
    "/terms.html";
    "https://cdn.tailwindcss.com";
    "https://code.iconify.design/iconify-icon/1.0.7/iconify-icon.min.js";
    "https://fonts.googleapis.com/css2?family=Manrope:wght@400;500;600;700;800&family=JetBrains+Mono:wght@500;700&display=swap";
    "https://cdn.jsdelivr.net/npm/@supabase/supabase-js@2";
    "https://cdn.jsdelivr.net/npm/tesseract.js@5/dist/tesseract.min.js" ].

(** [s.includes(sub)] *)
Fixpoint includes (s sub : string) : bool :=
  String.prefix sub s
  || match s with
     | EmptyString => false
     | String _ t => includes t sub
     end.

(** What the handler reads of the request; [hostname] is that of
    [new URL(request.url)], taken as given. *)
Record Request := {
  method : string;
  url : string;
  hostname : string;
  destination : string;
  mode : string
}.

(** What the fetch handler does with a request. *)
Inductive strategy :=
| NotHandled            (* returns without [respondWith] *)
| NetworkOrOfflineJson  (* [fetch], and an offline JSON body on failure *)
| CacheFirst            (* cache, refreshed in the background; else network *)
| NetworkThenDynamicCache (* network, stored in the dynamic cache; else cache *)
| NetworkThenCache.     (* network; else cache *)

Definition fetch_strategy (request : Request) : strategy :=
  if negb (String.eqb (method request) "GET") then NotHandled
  else if includes (hostname request) "clerk" then NotHandled
  else if includes (hostname request) "supabase" then NetworkOrOfflineJson
  else if existsb (fun asset => includes (url request) asset) STATIC_ASSETS
          || includes (url request) ".html"
          || includes (url request) ".css"
          || includes (url request) ".js"
  then CacheFirst
  else if String.eqb (destination request) "image" then NetworkThenDynamicCache
  else NetworkThenCache.

End ServiceWorker.

(* ================================================================== *)
(** ** Declarative readings of the rules, used to state further
       properties *)
(* ================================================================== *)

Module Rules.

Import JSString JSDate Scanner Spec.
Open Scope string_scope.
Open Scope Z_scope.

Fixpoint all_digits (s : string) : bool :=
  match s with
  | EmptyString => true
  | String c t => is_digit c && all_digits t
  end.

Fixpoint has_digit (s : string) : bool :=
  match s with
  | EmptyString => false
  | String c t => is_digit c || has_digit t
  end.

Fixpoint has_char (c : ascii) (s : string) : bool :=
  match s with
  | EmptyString => false
  | String a t => Ascii.eqb a c || has_char c t
  end.

Definition is_some {A} (v : option A) : bool :=
  match v with
  | Some _ => true
  | None => false
  end.

(** [Number.MAX_SAFE_INTEGER], 2^53 - 1: up to it the integers are JavaScript
    numbers one by one, so that [Z] arithmetic is that of the code. *)
Definition MAX_SAFE_INTEGER : Z := 9007199254740991.

(** A text that does not go on with a digit. *)
Definition stops (rest : string) : Prop :=
  match rest with
  | EmptyString => True
  | String c _ => is_digit c = false
  end.

(** A number as [toString] writes it: digits, with no zero in front unless
    it is the only digit. *)
Definition canonical_number (s : string) : bool :=
  match s with
  | EmptyString => false
  | String c t =>
      all_digits s && (negb (Ascii.eqb c "0") || String.eqb t "")
  end.

(** A number of one to four digits. *)
Definition short_number (s : string) : bool :=
  all_digits s && (1 <=? String.length s)%nat && (String.length s <=? 4)%nat.


(** The year a parsed year number stands for. *)
Definition full_year (y : Z) : Z :=
  if y <? 100 then (if y >? 50 then 1900 + y else 2000 + y) else y.

(** A date field that raises no error: absent, or parsed and not after the
    end of today. *)
Definition date_acceptable (tza today : Z) (d : option string) : bool :=
  negb (truthy_str d)
  || match parseDate tza d with
     | Some t => t <=? today
     | None => false
     end.

(** A time endpoint that raises no error: absent, or parsed. *)
Definition time_acceptable (t : option string) : bool :=
  negb (truthy_str t) || is_some (parseTime t).

(** The duration rules raise no error: no computed duration, or one of at
    least the minimum that is within 5 minutes of a recorded duration that
    parses. *)
Definition duration_acceptable (e : LogbookEntry) : bool :=
  match minutes_between e with
  | None => true
  | Some cd =>
      (minSessionMinutes <=? cd)
      && match parseDuration (totalTime e) with
         | Some recorded => Z.abs (cd - recorded) <=? 5
         | None => true
         end
  end.

Definition row_acceptable (tza today : Z) (e : LogbookEntry) : bool :=
  date_acceptable tza today (date e)
  && time_acceptable (startTime e)
  && time_acceptable (finishTime e)
  && duration_acceptable e
  && negb (odometer_backwards e).

(** The valid minutes of the pages of one type. *)
Definition minutes_of_type (kind : string) (scans : list PageScanResult) : Z :=
  fold_right
    (fun scan sum =>
       (if str_is (pageType scan) kind
        then sum_durations (filter isValid (entries scan))
        else 0) + sum)
    0 scans.

(** [e.durationMinutes || 0] *)
Definition duration_or_zero (v : ValidatedEntry) : Z :=
  match js_or (durationMinutes v) (Some 0) with
  | Some d => d
  | None => 0
  end.

Definition count_entries (scans : list PageScanResult) : nat :=
  fold_right (fun scan n => (List.length (entries scan) + n)%nat) 0%nat scans.

Definition count_errors (scans : list PageScanResult) : nat :=
  fold_right (fun scan n => (List.length (scan_errors scan) + n)%nat)
             0%nat scans.

Definition count_warnings (scans : list PageScanResult) : nat :=
  fold_right (fun scan n => (List.length (scan_warnings scan) + n)%nat)
             0%nat scans.

(** The result of [calculateCumulativeHours] as a function of the three
    sums of minutes and the three counts. *)
Definition hours_of_minutes (blue red green : Z) (nE nErr nW : nat)
  : CumulativeHours :=
  let adiActualHours := (inject_Z green / 60)%Q in
  let adiFirst10Credit := (Qmin adiActualHours 10 * 3)%Q in
  let adiExtraCredit := Qmax 0 (adiActualHours - 10)%Q in
  let adiTotalCredit := (adiFirst10Credit + adiExtraCredit)%Q in
  {| supervised :=
       {| dayHours := (inject_Z blue / 60)%Q;
          nightHours := (inject_Z red / 60)%Q;
          sup_totalHours := (inject_Z (blue + red) / 60)%Q |};
     adi :=
       {| adi_actualHours := adiActualHours;
          creditHours := adiTotalCredit;
          first10Credit := adiFirst10Credit;
          extraCredit := adiExtraCredit |};
     grandTotal :=
       {| actualHours := (inject_Z (blue + red + green) / 60)%Q;
          creditedHours := (inject_Z (blue + red) / 60 + adiTotalCredit)%Q |};
     validation :=
       {| totalEntries := nE; errorCount := nErr; warningCount := nW |} |}.

(** The professional credit in minutes, for [g] professional minutes. *)
Definition credit_minutes (g : Z) : Z := Z.min g 600 * 3 + Z.max 0 (g - 600).

(** A page result that [validateEntries] returned. *)
Definition from_validation (scan : PageScanResult) : Prop :=
  exists h x, scan = validateEntries h x.

(** A page with its invalid rows removed. *)
Definition without_invalid_rows (scan : PageScanResult) : PageScanResult :=
  {| success := success scan;
     pageType := pageType scan;
     pageTypeInfo := pageTypeInfo scan;
     pageNumber := pageNumber scan;
     entries := filter isValid (entries scan);
     totals := totals scan;
     scan_errors := scan_errors scan;
     scan_warnings := scan_warnings scan;
     hasErrors := hasErrors scan;
     hasWarnings := hasWarnings scan;
     pageNotes := pageNotes scan |}.

(** The fields of a row that the error rules read. *)
Definition same_checked_fields (e e' : LogbookEntry) : Prop :=
  date e = date e' /\ startTime e = startTime e'
  /\ finishTime e = finishTime e' /\ totalTime e = totalTime e'
  /\ odometerStart e = odometerStart e'
  /\ odometerFinish e = odometerFinish e'.

End Rules.

Module EligibilityRules.

Import Eligibility.
Open Scope Z_scope.




(** A calendar date. *)
Definition valid_date (d : sqldate) : Prop :=
  1 <= month d <= 12 /\ 1 <= day d <= day_tab (isleap (year d)) (month d).

(** The row [r] with other professional hours. *)
Definition with_professional_hours (p : option Q) (r : students) : students :=
  {| date_of_birth := date_of_birth r;
     licence_expiry_date := licence_expiry_date r;
     licence_issue_date := licence_issue_date r;
     age_at_issue := age_at_issue r;
     pathway := pathway r;
     supervised_hours := supervised_hours r;
     professional_hours := p;
     night_hours := night_hours r;
     safer_driver_credit := safer_driver_credit r;
     vru_credit := vru_credit r;
     first_aid_credit := first_aid_credit r;
     total_hours := total_hours r;
     hours_required := hours_required r;
     hours_remaining := hours_remaining r;
     cbta_completed := cbta_completed r;
     assessment_1_22_completed := assessment_1_22_completed r;
     tenure_start_date := tenure_start_date r;
     tenure_months_required := tenure_months_required r;
     earliest_eligible_date := earliest_eligible_date r;
     status := status r;
     final_drive_completed_at := final_drive_completed_at r;
     data_retention_until := data_retention_until r;
     updated_at := updated_at r |}.

End EligibilityRules.

(* ================================================================== *)
(** ** Comparisons of rationals *)
(* ================================================================== *)

Module RationalTests.





End RationalTests.

(* ================================================================== *)
(** ** Properties of the eligibility trigger *)
(* ================================================================== *)

Module EligibilityProps.

Import Eligibility EligibilitySamples RationalTests.
Open Scope Z_scope.



(** The total the trigger computes is the credited-hours formula. *)
Lemma v_total_hrs_formula (s : session) (NEW : students) :
  v_total_hrs (snd (calculate_eligibility_body s NEW)) =
  (Qmin (COALESCE (professional_hours NEW) 0) 10 * 3
   + COALESCE (supervised_hours NEW) 0
   + credit (safer_driver_credit NEW) 20
   + credit (vru_credit NEW) 10
   + credit (first_aid_credit NEW) 5)%Q.
Proof. reflexivity. Qed.

(** With both dates known the requirements are those of the pathway. *)
Lemma pathway_requirements (s : session) (NEW : students) (p : pathway_type) :
  v_is_under_25 (snd (calculate_eligibility_body s NEW)) <> None ->
  pathway (calculate_eligibility s NEW) = Some p ->
  hours_required (calculate_eligibility s NEW)
    = Some (match p with P1_RED => 100 | P2_GREEN => 50 end)
  /\ v_night_req (snd (calculate_eligibility_body s NEW))
    = match p with P1_RED => 10 | P2_GREEN => 5 end
  /\ tenure_months_required (calculate_eligibility s NEW)
    = Some (match p with P1_RED => 12 | P2_GREEN => 6 end).
Proof.
  unfold calculate_eligibility, calculate_eligibility_body.
  cbn [fst snd v_is_under_25 pathway hours_required v_night_req
       tenure_months_required].
  destruct (date_of_birth NEW) as [dob|]; [|intros H; now elim H].
  destruct (match licence_expiry_date NEW with
            | Some _ => _ | None => _ end) as [issue|];
    [|intros H; now elim H].
  cbn [option_map COALESCE].
  destruct (age_years issue dob <? 25); intros _ E; inversion E; subst; auto.
Qed.





(** C10.  With an expiry date in the row, the trigger overwrites
    [licence_issue_date] with the expiry date minus 5 years before it
    computes the age at issue and the pathway, so that whatever issue date
    was supplied has no effect on the returned row; without an expiry date
    the stored [licence_issue_date] stays as it is. *)
Theorem issue_date_overwritten_from_expiry (s : session) (NEW : students) :
  (forall expiry, licence_expiry_date NEW = Some expiry ->
     licence_issue_date (calculate_eligibility s NEW)
       = Some (add_months expiry (- 60))
     /\ (forall dob, date_of_birth NEW = Some dob ->
           age_at_issue (calculate_eligibility s NEW)
             = Some (age_years (add_months expiry (- 60)) dob)
           /\ pathway (calculate_eligibility s NEW)
             = Some (if age_years (add_months expiry (- 60)) dob <? 25
                     then P1_RED else P2_GREEN))
     /\ (forall supplied,
           calculate_eligibility s (submitted_with_issue_date supplied NEW)
           = calculate_eligibility s NEW))
  /\ (licence_expiry_date NEW = None ->
      licence_issue_date (calculate_eligibility s NEW)
      = licence_issue_date NEW).
Proof.
  split.
  - intros expiry E. repeat split.
    + unfold calculate_eligibility, calculate_eligibility_body.
      cbn [fst licence_issue_date]. rewrite E. reflexivity.
    + unfold calculate_eligibility, calculate_eligibility_body.
      cbn [fst age_at_issue]. rewrite E, H. reflexivity.
    + unfold calculate_eligibility, calculate_eligibility_body.
      cbn [fst pathway]. rewrite E, H. reflexivity.
    + intro supplied.
      unfold calculate_eligibility, calculate_eligibility_body,
        submitted_with_issue_date.
      cbn [fst date_of_birth licence_expiry_date licence_issue_date
           age_at_issue pathway supervised_hours professional_hours
           night_hours safer_driver_credit vru_credit first_aid_credit
           total_hours hours_required hours_remaining cbta_completed
           assessment_1_22_completed tenure_start_date
           tenure_months_required earliest_eligible_date status
           final_drive_completed_at data_retention_until updated_at].
      rewrite E. reflexivity.
  - intro E.
    unfold calculate_eligibility, calculate_eligibility_body.
    cbn [fst licence_issue_date]. rewrite E. reflexivity.
Qed.

(** The sample learner is submitted with issue date 1 January 2020 and
    expiry 1 September 2030: the returned issue date is 1 September 2025,
    and the age at issue is 20, not 14. *)
Lemma issue_date_overwritten_from_expiry_witness :
  licence_issue_date (learner 100 0 10) = Some (ymd 2020 1 1)
  /\ licence_issue_date
       (calculate_eligibility first_of_november_2026 (learner 100 0 10))
     = Some (ymd 2025 9 1)
  /\ age_at_issue
       (calculate_eligibility first_of_november_2026 (learner 100 0 10))
     = Some 20.
Proof.
  split; [reflexivity|].
  destruct (issue_date_overwritten_from_expiry first_of_november_2026
                                               (learner 100 0 10))
    as [Hsome _].
  destruct (Hsome (ymd 2030 9 1) eq_refl) as [Hissue [Hage _]].
  split.
  - exact Hissue.
  - exact (proj1 (Hage (ymd 2005 6 15) eq_refl)).
Defined.

End EligibilityProps.

(* ================================================================== *)
(** ** Properties of the scanner: rows *)
(* ================================================================== *)

Module RowProps.

Import JSString JSDate Scanner Spec RationalTests.
Open Scope string_scope.
Open Scope Z_scope.

(** *** Each step only appends to the error list *)

(** [l'] has the errors of [l] followed by [es]. *)
Local Abbreviation grows l l' es :=
  (entryErrors l' = (entryErrors l ++ es)%list).

Lemma no_odometer_field_app (a b : list issue) :
  no_odometer_field a -> no_odometer_field b -> no_odometer_field (a ++ b).
Proof. unfold no_odometer_field. intros. now apply Forall_app. Qed.

Lemma no_odometer_field_one (f : string) (m : message) :
  f <> "odometer" -> no_odometer_field [{| field := f; msg := m |}].
Proof. intro H. constructor; [exact H | constructor]. Qed.

Lemma no_odometer_field_nil : no_odometer_field [].
Proof. constructor. Qed.

Create HintDb rows.

#[local] Hint Resolve no_odometer_field_nil no_odometer_field_one
  no_odometer_field_app : rows.

Ltac field_neq := apply no_odometer_field_one; discriminate.

Lemma check_unclear_grows (e : LogbookEntry) (l : rowlog) :
  exists es, grows l (check_unclear e l) es /\ no_odometer_field es
    /\ (str_is (date e) "UNCLEAR" = true
        \/ str_is (startTime e) "UNCLEAR" = true
        \/ str_is (finishTime e) "UNCLEAR" = true -> es <> []).
Proof.
  unfold check_unclear.
  destruct (str_is (date e) "UNCLEAR") eqn:D;
  destruct (str_is (startTime e) "UNCLEAR") eqn:S;
  destruct (str_is (finishTime e) "UNCLEAR") eqn:F;
  destruct (str_is (totalTime e) "UNCLEAR") eqn:T;
  cbn [orb push_error push_warning entryErrors entryWarnings];
  rewrite <- ?app_assoc; cbn [app];
  try (eexists; split; [reflexivity|]; split;
       [repeat constructor; discriminate | intros _; discriminate]).
  all: exists []; rewrite app_nil_r; split; [reflexivity|];
    split; [constructor|];
    intros [H|[H|H]]; discriminate.
Qed.

Lemma check_date_grows (tza today : Z) (e : LogbookEntry) (l : rowlog) :
  exists es, grows l (snd (check_date tza today e l)) es
             /\ no_odometer_field es.
Proof.
  unfold check_date.
  destruct (truthy_str (date e) && negb (str_is (date e) "UNCLEAR")).
  - destruct (parseDate tza (date e)) as [d|].
    + destruct (d >? today).
      * eexists; split; [reflexivity | field_neq].
      * destruct (d <? earliestDate);
          exists []; cbn [snd push_warning entryErrors];
          rewrite app_nil_r; auto with rows.
    + eexists; split; [reflexivity | field_neq].
  - exists []. cbn [snd]. rewrite app_nil_r. auto with rows.
Qed.

Lemma check_time_grows (fld : string) (bad : string -> message)
  (t : option string) (l : rowlog) :
  fld <> "odometer" ->
  exists es, grows l (snd (check_time fld bad t l)) es
             /\ no_odometer_field es.
Proof.
  intro Hf. unfold check_time.
  destruct (truthy_str t && negb (str_is t "UNCLEAR")).
  - destruct (parseTime t).
    + exists []. cbn [snd]. rewrite app_nil_r. auto with rows.
    + eexists; split; [reflexivity | auto with rows].
  - exists []. cbn [snd]. rewrite app_nil_r. auto with rows.
Qed.

Lemma check_time_value (fld : string) (bad : string -> message)
  (t : option string) (l : rowlog) :
  fst (check_time fld bad t l) = endpoint_minutes t.
Proof.
  unfold check_time, endpoint_minutes.
  destruct (truthy_str t && negb (str_is t "UNCLEAR")); [|reflexivity].
  now destruct (parseTime t).
Qed.

Lemma check_duration_grows (e : LogbookEntry) (st fi : option Z)
  (total : Z) (l : rowlog) :
  exists es, grows l (snd (check_duration e st fi total l)) es
             /\ no_odometer_field es.
Proof.
  unfold check_duration.
  destruct st as [st|]; [destruct fi as [fi|]|].
  2,3: exists []; cbn [snd]; rewrite app_nil_r; auto with rows.
  cbn [snd].
  set (cd := (if fi <? st then fi + 24 * 60 else fi) - st).
  destruct (cd <? minSessionMinutes);
  destruct (cd >? maxSessionHours * 60);
  destruct (truthy_str (totalTime e) && negb (str_is (totalTime e) "UNCLEAR"));
  try destruct (parseDuration (totalTime e)) as [rec|];
  try destruct (Z.abs (cd - rec) >? 5);
  cbn [push_error push_warning entryErrors entryWarnings];
  rewrite <- ?app_assoc; cbn [app];
  try (exists []; rewrite app_nil_r; split; [reflexivity | constructor]);
  try (eexists; split; [reflexivity | repeat constructor; discriminate]).
Qed.

Lemma check_duration_value (e : LogbookEntry) (st fi : option Z)
  (total : Z) (l : rowlog) :
  fst (check_duration e st fi total l)
  = match st, fi with
    | Some st, Some fi =>
        let cd := (if fi <? st then fi + 24 * 60 else fi) - st in
        (Some cd, total + cd)
    | _, _ => (None, total)
    end.
Proof.
  unfold check_duration.
  destruct st as [st|]; [destruct fi as [fi|]|]; reflexivity.
Qed.

Lemma check_signature_errors (e : LogbookEntry) (l : rowlog) :
  entryErrors (check_signature e l) = entryErrors l.
Proof. unfold check_signature. now destruct (negb (hasSignature e)). Qed.

Lemma check_confidence_errors (e : LogbookEntry) (l : rowlog) :
  entryErrors (check_confidence e l) = entryErrors l.
Proof. unfold check_confidence. now destruct (str_is (confidence e) "low"). Qed.

Lemma check_odometer_errors (e : LogbookEntry) (cd : option Z) (l : rowlog) :
  entryErrors (check_odometer e cd l)
  = (entryErrors l ++
     (if odometer_backwards e
      then [{| field := "odometer"; msg := OdometerFinishLessThanStart |}]
      else []))%list.
Proof.
  unfold check_odometer, odometer_backwards.
  destruct (odometerStart e) as [os|]; [destruct (odometerFinish e) as [ofi|]|].
  2,3: cbn [truthy_num andb]; rewrite ?andb_false_r; now rewrite app_nil_r.
  destruct (truthy_num (Some os) && truthy_num (Some ofi)); cbn [andb];
    [|now rewrite app_nil_r].
  destruct (Qltb (ofi - os) 0); [reflexivity|].
  rewrite app_nil_r.
  destruct (Qltb 200 (ofi - os) && truthy_int cd); [|reflexivity].
  destruct cd as [c|]; [|reflexivity].
  now destruct (Qltb 100 _).
Qed.

(** *** The validated row as a function of the extracted row *)

Lemma validateEntry_values (tza today : Z) (e : LogbookEntry) (total : Z) :
  let v := fst (validateEntry tza today e total) in
  entry v = e
  /\ calculatedDuration v = minutes_between e
  /\ durationMinutes v
     = js_or (minutes_between e) (parseDuration (totalTime e))
  /\ isValid v = (List.length (errors v) =? 0)%nat
  /\ snd (validateEntry tza today e total)
     = total + or_zero (minutes_between e).
Proof.
  unfold validateEntry.
  set (l0 := check_unclear e _).
  destruct (check_date tza today e l0) as [pd l1].
  pose proof (check_time_value "startTime" InvalidStartTime (startTime e) l1)
    as Hs.
  destruct (check_time "startTime" InvalidStartTime (startTime e) l1)
    as [st l2].
  pose proof (check_time_value "finishTime" InvalidFinishTime (finishTime e) l2)
    as Hf.
  destruct (check_time "finishTime" InvalidFinishTime (finishTime e) l2)
    as [fi l3].
  pose proof (check_duration_value e st fi total l3) as Hd.
  destruct (check_duration e st fi total l3) as [[cd total'] l4].
  cbn [fst snd] in *. subst st fi.
  cbn [entry calculatedDuration durationMinutes isValid errors].
  unfold minutes_between.
  destruct (endpoint_minutes (startTime e)) as [st|];
    [destruct (endpoint_minutes (finishTime e)) as [fi|]|];
    inversion Hd; subst; cbn [or_zero]; repeat split; lia.
Qed.

Lemma validateEntry_errors (tza today : Z) (e : LogbookEntry) (total : Z) :
  exists pre,
    errors (fst (validateEntry tza today e total))
    = (pre ++
       (if odometer_backwards e
        then [{| field := "odometer"; msg := OdometerFinishLessThanStart |}]
        else []))%list
    /\ no_odometer_field pre
    /\ (str_is (date e) "UNCLEAR" = true
        \/ str_is (startTime e) "UNCLEAR" = true
        \/ str_is (finishTime e) "UNCLEAR" = true -> pre <> []).
Proof.
  unfold validateEntry.
  destruct (check_unclear_grows e {| entryErrors := []; entryWarnings := [] |})
    as (es0 & G0 & N0 & U0).
  set (l0 := check_unclear e _) in *.
  destruct (check_date_grows tza today e l0) as (es1 & G1 & N1).
  destruct (check_date tza today e l0) as [pd l1].
  destruct (check_time_grows "startTime" InvalidStartTime (startTime e) l1)
    as (es2 & G2 & N2); [discriminate|].
  destruct (check_time "startTime" InvalidStartTime (startTime e) l1)
    as [st l2].
  destruct (check_time_grows "finishTime" InvalidFinishTime (finishTime e) l2)
    as (es3 & G3 & N3); [discriminate|].
  destruct (check_time "finishTime" InvalidFinishTime (finishTime e) l2)
    as [fi l3].
  destruct (check_duration_grows e st fi total l3) as (es4 & G4 & N4).
  destruct (check_duration e st fi total l3) as [[cd total'] l4].
  cbn [fst snd errors] in *.
  rewrite check_confidence_errors, check_odometer_errors,
    check_signature_errors, G4, G3, G2, G1, G0.
  cbn [entryErrors app].
  exists (es0 ++ es1 ++ es2 ++ es3 ++ es4)%list.
  rewrite <- !app_assoc. split; [reflexivity|]. split.
  - auto 10 with rows.
  - intros H E. apply U0 in H. apply H.
    now destruct es0.
Qed.

Lemma validateEntry_total_irrelevant (tza today : Z) (e : LogbookEntry)
  (total total' : Z) :
  fst (validateEntry tza today e total) = fst (validateEntry tza today e total').
Proof.
  unfold validateEntry.
  destruct (check_date tza today e _) as [pd l1].
  destruct (check_time "startTime" _ _ l1) as [st l2].
  destruct (check_time "finishTime" _ _ l2) as [fi l3].
  unfold check_duration.
  destruct st as [st|]; [destruct fi as [fi|]|]; reflexivity.
Qed.

(** *** Rows with an unclear date or time *)

Lemma unclear_entry_not_valid (tza today : Z) (e : LogbookEntry)
  (total : Z) :
  date e = Some "UNCLEAR" \/ startTime e = Some "UNCLEAR"
  \/ finishTime e = Some "UNCLEAR" ->
  isValid (fst (validateEntry tza today e total)) = false.
Proof.
  intro H.
  destruct (validateEntry_values tza today e total) as (_ & _ & _ & V & _).
  destruct (validateEntry_errors tza today e total) as (pre & E & _ & U).
  rewrite V, E.
  assert (pre <> []) as Hpre.
  { apply U. destruct H as [H|[H|H]]; rewrite H; auto. }
  destruct pre; [now elim Hpre | reflexivity].
Qed.

(** *** The duration of a row *)

(** Away from a computed duration of 0 the row's [durationMinutes] is what
    the specification says. *)
Lemma durationMinutes_agrees_off_zero (tza today : Z) (e : LogbookEntry)
  (total : Z) :
  calculatedDuration (fst (validateEntry tza today e total)) <> Some 0 ->
  durationMinutes (fst (validateEntry tza today e total))
  = spec_durationMinutes (fst (validateEntry tza today e total)).
Proof.
  destruct (validateEntry_values tza today e total) as (En & C & D & _ & _).
  unfold spec_durationMinutes. rewrite D, C, En. intro H.
  unfold js_or, truthy_int.
  destruct (minutes_between e) as [d|]; [|reflexivity].
  destruct (Z.eqb_spec d 0) as [->|]; [now elim H | reflexivity].
Qed.

(** C7, at the input where the code departs from it.  Start and finish at
    10:00 with 1:30 recorded: the computed duration exists and is 0, the
    specification asks for [durationMinutes] 0, and the code stores the
    recorded 90 minutes, because [0 || x] is [x]. *)
Theorem zero_duration_replaced_by_recorded :
  calculatedDuration (validated_row brisbane row_zero_duration) = Some 0
  /\ durationMinutes (validated_row brisbane row_zero_duration) = Some 90
  /\ spec_durationMinutes (validated_row brisbane row_zero_duration) = Some 0.
Proof. vm_compute. repeat split. Qed.

(** *** The odometer rule *)










End RowProps.

(* ================================================================== *)
(** ** Properties of the scanner: pages and cumulative hours *)
(* ================================================================== *)

Module PageProps.

Import JSString JSDate Scanner Spec RowProps.
Open Scope string_scope.
Open Scope Z_scope.

(** *** The loop of [validateEntries] *)

Lemma scan_fold (tza today : Z) (rows : list LogbookEntry) :
  forall st,
    st_validatedEntries (fold_left (scan_step tza today) rows st)
    = (st_validatedEntries st
       ++ map (fun e => fst (validateEntry tza today e 0)) rows)%list
    /\ st_totalMinutes (fold_left (scan_step tza today) rows st)
       = st_totalMinutes st + minutes_of_all_rows rows.
Proof.
  induction rows as [|e rows IH]; intro st.
  - cbn. rewrite app_nil_r. split; [reflexivity | lia].
  - cbn [fold_left map minutes_of_all_rows fold_right].
    destruct (IH (scan_step tza today st e)) as [IHe IHt].
    rewrite IHe, IHt. clear IH IHe IHt.
    unfold scan_step.
    destruct (validateEntry_values tza today e (st_totalMinutes st))
      as (_ & _ & _ & _ & T).
    pose proof (validateEntry_total_irrelevant
                  tza today e (st_totalMinutes st) 0) as I.
    destruct (validateEntry tza today e (st_totalMinutes st)) as [v total].
    cbn [fst snd] in *. subst total.
    cbn [st_validatedEntries st_totalMinutes].
    rewrite <- app_assoc, I. cbn [app].
    split; [reflexivity|].
    fold (minutes_of_all_rows rows). lia.
Qed.

(** The rows of the result are the validated rows of the extraction, in
    order. *)
Lemma entries_validateEntries (h : host) (x : ExtractionResult) :
  entries (validateEntries h x) = map (validated_row h) (x_entries x).
Proof.
  unfold validateEntries. cbn [entries].
  destruct (scan_fold (LocalTZA h) (setHours_end_of_day (LocalTZA h) (now h))
                      (x_entries x) scan_init) as [E _].
  rewrite E. reflexivity.
Qed.

(** The page total is the sum, over all rows with two parsed endpoints, of
    the minutes between them: the validity of a row plays no part in it. *)
Lemma page_total_is_minutes_of_all_rows (h : host) (x : ExtractionResult) :
  totalMinutes (totals (validateEntries h x))
  = minutes_of_all_rows (x_entries x).
Proof.
  unfold validateEntries. cbn [totals totalMinutes].
  destruct (scan_fold (LocalTZA h) (setHours_end_of_day (LocalTZA h) (now h))
                      (x_entries x) scan_init) as [_ T].
  rewrite T. reflexivity.
Qed.

(** C6.  In the result of validating a page, every row whose date, start
    time or finish time is the sentinel [UNCLEAR] has [isValid] false,
    whatever its other fields are. *)
Theorem unclear_row_is_never_valid (h : host) (x : ExtractionResult)
  (v : ValidatedEntry) :
  In v (entries (validateEntries h x)) ->
  date (entry v) = Some "UNCLEAR" \/ startTime (entry v) = Some "UNCLEAR"
  \/ finishTime (entry v) = Some "UNCLEAR" ->
  isValid v = false.
Proof.
  rewrite entries_validateEntries, in_map_iff.
  intros (e & <- & _). unfold validated_row.
  destruct (validateEntry_values
              (LocalTZA h) (setHours_end_of_day (LocalTZA h) (now h)) e 0)
    as (-> & _).
  apply unclear_entry_not_valid.
Qed.

Lemma unclear_row_is_never_valid_witness :
  isValid (validated_row brisbane row_unclear_date) = false.
Proof.
  apply (unclear_row_is_never_valid
           brisbane (page "BLUE_DAY" [row_ok; row_unclear_date])).
  - vm_compute. right. left. reflexivity.
  - left. reflexivity.
Defined.

(** C2, at an input where the code departs from it.  A day page with one
    row, 10:00 to 11:00, whose date is illegible: the row is invalid and
    its [durationMinutes] is 60; the sum over valid rows is 0, and the page
    total of the code is 60.  [calculateCumulativeHours] counts 0 minutes
    for the same page. *)
Theorem page_total_counts_invalid_rows :
  let result := validateEntries brisbane (page "BLUE_DAY" [row_unclear_date]) in
  map isValid (entries result) = [false]
  /\ map durationMinutes (entries result) = [Some 60]
  /\ spec_page_total (entries result) = 0
  /\ totalMinutes (totals result) = 60
  /\ (dayHours (supervised (calculateCumulativeHours [result])) == 0)%Q.
Proof. vm_compute. repeat split. Qed.

(** *** The loop of [calculateCumulativeHours] *)

Lemma cum_step_green (t : cumstate) (scan : PageScanResult) :
  greenAdiMinutes (cum_step t scan)
  = greenAdiMinutes t
    + (if str_is (pageType scan) "GREEN_ADI"
          || str_is (pageType scan) "ADI_STAMP"
       then sum_durations (filter isValid (entries scan))
       else 0).
Proof.
  unfold cum_step.
  destruct (pageType scan) as [k|]; cbn [str_is orb]; [|cbn; lia].
  destruct (String.eqb_spec k "BLUE_DAY") as [->|_]; [cbn; lia|].
  destruct (String.eqb_spec k "RED_NIGHT") as [->|_]; [cbn; lia|].
  destruct (k =? "GREEN_ADI")%string; destruct (k =? "ADI_STAMP")%string;
    cbn [orb greenAdiMinutes]; lia.
Qed.

Lemma cum_fold_green (scans : list PageScanResult) :
  forall t,
    greenAdiMinutes (fold_left cum_step scans t)
    = greenAdiMinutes t + professional_actual_minutes scans.
Proof.
  induction scans as [|scan scans IH]; intro t.
  - cbn. lia.
  - cbn [fold_left professional_actual_minutes fold_right].
    rewrite IH, cum_step_green.
    fold (professional_actual_minutes scans). lia.
Qed.

Lemma actual_hours_from_minutes (scans : list PageScanResult) :
  adi_actualHours (adi (calculateCumulativeHours scans))
  = (inject_Z (professional_actual_minutes scans) / 60)%Q.
Proof.
  unfold calculateCumulativeHours. cbn [adi adi_actualHours].
  rewrite cum_fold_green. reflexivity.
Qed.

(** C5.  For every collection of page scan results, with [actual] the
    professional minutes over 60: the first-tier credit is
    [min(actual, 10) * 3], the excess credit is [max(0, actual - 10) * 1],
    and the professional credit is their sum; 12 actual hours give 30, 2
    and 32. *)
Theorem professional_credit_is_tiered (scans : list PageScanResult) :
  let c := adi (calculateCumulativeHours scans) in
  let actual := (inject_Z (professional_actual_minutes scans) / 60)%Q in
  adi_actualHours c = actual
  /\ first10Credit c = (Qmin actual 10 * 3)%Q
  /\ (extraCredit c == Qmax 0 (actual - 10) * 1)%Q
  /\ creditHours c = (first10Credit c + extraCredit c)%Q
  /\ ((actual == 12)%Q ->
      (first10Credit c == 30)%Q /\ (extraCredit c == 2)%Q
      /\ (creditHours c == 32)%Q).
Proof.
  cbv zeta.
  pose proof (actual_hours_from_minutes scans) as A.
  unfold calculateCumulativeHours in *.
  cbn [adi adi_actualHours first10Credit extraCredit creditHours] in *.
  rewrite A. clear A.
  set (actual := (inject_Z (professional_actual_minutes scans) / 60)%Q).
  split; [reflexivity|]. split; [reflexivity|].
  split; [now rewrite Qmult_1_r|]. split; [reflexivity|].
  intro H.
  assert (Qmin actual 10 == 10)%Q as Hmin.
  { apply Q.min_r. rewrite H. discriminate. }
  assert (Qmax 0 (actual - 10) == 2)%Q as Hmax.
  { rewrite Q.max_r; [rewrite H; reflexivity | rewrite H; discriminate]. }
  rewrite Hmin, Hmax. repeat split; reflexivity.
Qed.

(** Six two-hour rows on a professional page. *)
Lemma professional_credit_is_tiered_witness :
  (adi_actualHours (adi (calculateCumulativeHours twelve_professional_hours))
   == 12)%Q
  /\ (first10Credit (adi (calculateCumulativeHours twelve_professional_hours))
      == 30)%Q
  /\ (extraCredit (adi (calculateCumulativeHours twelve_professional_hours))
      == 2)%Q
  /\ (creditHours (adi (calculateCumulativeHours twelve_professional_hours))
      == 32)%Q.
Proof.
  destruct (professional_credit_is_tiered twelve_professional_hours)
    as (A & _ & _ & _ & H).
  split.
  - rewrite A. vm_compute. reflexivity.
  - apply H. vm_compute. reflexivity.
Defined.

End PageProps.

(* ================================================================== *)
(** ** Properties of the parsers *)
(* ================================================================== *)

Module ParserProps.

Import JSString JSDate Scanner Spec.
Open Scope string_scope.
Open Scope Z_scope.

(** *** [parseDate] *)

(** Day 31 of February 2024 and day 2 of March 2024 are the same day for
    [MakeDay], 19784 days after the epoch; 5 March 2024 is day 19787. *)
Lemma MakeDay_carries_over :
  MakeDay 2024 1 31 = 19784 /\ MakeDay 2024 2 2 = 19784
  /\ MakeDay 2024 2 5 = 19787.
Proof. repeat split. Qed.

(** C3.  The text 5/3/24 parses to the date [new Date(2024, 2, 5)],
    5 March 2024.  The text 31/02/2024 does not fail: the [Date] constructor
    carries the days beyond February over, the test for an Invalid Date
    passes, and the result is [new Date(2024, 2, 2)], 2 March 2024; a row
    with that date gets no error. *)
Theorem parseDate_31_february_is_2_march :
  (forall tza,
     parseDate tza (Some "5/3/24")
     = new_Date tza (Some 2024) (Some 2) (Some 5)
     /\ parseDate tza (Some "31/02/2024")
        = new_Date tza (Some 2024) (Some 2) (Some 2))
  /\ parseDate (LocalTZA brisbane) (Some "5/3/24") = Some 1709560800000
  /\ parseDate (LocalTZA brisbane) (Some "31/02/2024") = Some 1709301600000
  /\ errors (validated_row brisbane
               (row (Some "31/02/2024") (Some "10:00") (Some "11:00")
                    (Some "1:00") None None)) = [].
Proof.
  split; [intro tza; split; reflexivity|].
  repeat split.
Qed.

(** *** [parseTime] *)

Lemma digit_facts (c : ascii) :
  is_digit c = true ->
  is_space c = false /\ Ascii.eqb c "-" = false /\ Ascii.eqb c "+" = false
  /\ 0 <= digit_value c <= 9.
Proof.
  destruct c as [[] [] [] [] [] [] [] []]; cbv; intro H;
    try discriminate H; repeat split; try reflexivity;
    intro D; discriminate D.
Qed.

Lemma parseInt_one_digit (a : ascii) :
  is_digit a = true -> parseInt (String a "") = Some (digit_value a).
Proof.
  intro Ha. destruct (digit_facts a Ha) as (S & M & P & _).
  unfold parseInt. cbn [skip_spaces]. rewrite S, M, P.
  cbn [span_digits]. rewrite Ha. cbn [span_digits].
  unfold digits_value. cbn [digits_value_from]. f_equal. lia.
Qed.

Lemma parseInt_two_digits (a b : ascii) :
  is_digit a = true -> is_digit b = true ->
  parseInt (String a (String b ""))
  = Some (digit_value a * 10 + digit_value b).
Proof.
  intros Ha Hb. destruct (digit_facts a Ha) as (S & M & P & _).
  unfold parseInt. cbn [skip_spaces]. rewrite S, M, P.
  cbn [span_digits]. rewrite Ha. cbn [span_digits]. rewrite Hb.
  cbn [span_digits].
  unfold digits_value. cbn [digits_value_from]. f_equal. lia.
Qed.

Lemma groups_value_1_2 (a d e : ascii) :
  is_digit a = true -> is_digit d = true -> is_digit e = true ->
  groups_value (String a "") (String d (String e ""))
  = if (digits_value (String a "") <=? 23)
       && (digits_value (String d (String e "")) <=? 59)
    then Some (digits_value (String a "") * 60
               + digits_value (String d (String e "")))
    else None.
Proof.
  intros Ha Hd He. unfold groups_value.
  rewrite (parseInt_one_digit a Ha), (parseInt_two_digits d e Hd He).
  destruct (digit_facts a Ha) as (_ & _ & _ & Ra).
  destruct (digit_facts d Hd) as (_ & _ & _ & Rd).
  destruct (digit_facts e He) as (_ & _ & _ & Re).
  unfold digits_value. cbn [digits_value_from].
  replace (0 * 10 + digit_value a) with (digit_value a) by lia.
  replace ((0 * 10 + digit_value d) * 10 + digit_value e)
    with (digit_value d * 10 + digit_value e) by lia.
  replace (digit_value a >=? 0) with true by (symmetry; apply Z.geb_le; lia).
  replace (digit_value d * 10 + digit_value e >=? 0) with true
    by (symmetry; apply Z.geb_le; lia).
  cbn [andb]. rewrite andb_true_r. reflexivity.
Qed.

Lemma groups_value_2_2 (a b d e : ascii) :
  is_digit a = true -> is_digit b = true ->
  is_digit d = true -> is_digit e = true ->
  groups_value (String a (String b "")) (String d (String e ""))
  = if (digits_value (String a (String b "")) <=? 23)
       && (digits_value (String d (String e "")) <=? 59)
    then Some (digits_value (String a (String b "")) * 60
               + digits_value (String d (String e "")))
    else None.
Proof.
  intros Ha Hb Hd He. unfold groups_value.
  rewrite (parseInt_two_digits a b Ha Hb), (parseInt_two_digits d e Hd He).
  destruct (digit_facts a Ha) as (_ & _ & _ & Ra).
  destruct (digit_facts b Hb) as (_ & _ & _ & Rb).
  destruct (digit_facts d Hd) as (_ & _ & _ & Rd).
  destruct (digit_facts e He) as (_ & _ & _ & Re).
  unfold digits_value. cbn [digits_value_from].
  replace ((0 * 10 + digit_value a) * 10 + digit_value b)
    with (digit_value a * 10 + digit_value b) by lia.
  replace ((0 * 10 + digit_value d) * 10 + digit_value e)
    with (digit_value d * 10 + digit_value e) by lia.
  replace (digit_value a * 10 + digit_value b >=? 0) with true
    by (symmetry; apply Z.geb_le; lia).
  replace (digit_value d * 10 + digit_value e >=? 0) with true
    by (symmetry; apply Z.geb_le; lia).
  cbn [andb]. rewrite andb_true_r. reflexivity.
Qed.

Lemma time_match_1_token (s g1 g2 : string) :
  time_match_1 s = Some (g1, g2) ->
  exists tok post, s = tok ++ post
                   /\ spec_parse_clock_time tok = groups_value g1 g2.
Proof.
  destruct s as [|a [|p [|d [|e post]]]]; cbn [time_match_1];
    try discriminate.
  destruct (is_digit a) eqn:Ha; cbn [andb]; try discriminate.
  destruct (is_time_sep p) eqn:Hp; cbn [andb]; try discriminate.
  destruct (is_digit d) eqn:Hd; cbn [andb]; try discriminate.
  destruct (is_digit e) eqn:He; cbn [andb]; try discriminate.
  intro H. inversion H. subst g1 g2. clear H.
  exists (String a (String p (String d (String e "")))), post.
  split; [reflexivity|].
  cbn [spec_parse_clock_time]. rewrite Ha, Hp, Hd, He. cbn [andb].
  now rewrite groups_value_1_2.
Qed.

Lemma time_match_2_token (s g1 g2 : string) :
  time_match_2 s = Some (g1, g2) ->
  exists tok post, s = tok ++ post
                   /\ spec_parse_clock_time tok = groups_value g1 g2.
Proof.
  destruct s as [|a [|b [|p [|d [|e post]]]]]; cbn [time_match_2];
    try discriminate.
  destruct (is_digit a) eqn:Ha; cbn [andb]; try discriminate.
  destruct (is_digit b) eqn:Hb; cbn [andb]; try discriminate.
  destruct (is_time_sep p) eqn:Hp; cbn [andb]; try discriminate.
  destruct (is_digit d) eqn:Hd; cbn [andb]; try discriminate.
  destruct (is_digit e) eqn:He; cbn [andb]; try discriminate.
  intro H. inversion H. subst g1 g2. clear H.
  exists (String a (String b (String p (String d (String e ""))))), post.
  split; [reflexivity|].
  cbn [spec_parse_clock_time]. rewrite Ha, Hb, Hp, Hd, He. cbn [andb].
  now rewrite groups_value_2_2.
Qed.

Lemma time_search_token (s g1 g2 : string) :
  time_search s = Some (g1, g2) ->
  exists pre tok post, s = pre ++ tok ++ post
                       /\ spec_parse_clock_time tok = groups_value g1 g2.
Proof.
  induction s as [|c t IH]; [discriminate|].
  cbn [time_search]. unfold time_match_here.
  destruct (time_match_2 (String c t)) as [[h m]|] eqn:E2.
  - intro H. inversion H. subst h m.
    destruct (time_match_2_token _ _ _ E2) as (tok & post & -> & V).
    exists "", tok, post. split; [reflexivity | exact V].
  - destruct (time_match_1 (String c t)) as [[h m]|] eqn:E1.
    + intro H. inversion H. subst h m.
      destruct (time_match_1_token _ _ _ E1) as (tok & post & -> & V).
      exists "", tok, post. split; [reflexivity | exact V].
    + intro H. destruct (IH H) as (pre & tok & post & -> & V).
      exists (String c pre), tok, post. split; [reflexivity | exact V].
Qed.

Lemma parseTime_by_search (s : string) :
  parseTime (Some s)
  = match time_search s with
    | Some (g1, g2) => groups_value g1 g2
    | None => None
    end.
Proof.
  destruct s as [|c t]; [reflexivity|].
  unfold parseTime, groups_value. cbn [truthy_str negb].
  reflexivity.
Qed.





End ParserProps.

(* ================================================================== *)
(** * Further properties of the code *)
(* ================================================================== *)

(** ** The parsers: ranges, failures and round trips *)

Module ParserFacts.

Import JSString JSDate Scanner Spec Rules ParserProps.
Open Scope string_scope.
Open Scope Z_scope.

(** *** Digit strings *)

Lemma digits_value_from_shift (s : string) :
  forall acc,
    digits_value_from acc s
    = acc * 10 ^ Z.of_nat (String.length s) + digits_value s.
Proof.
  unfold digits_value.
  induction s as [|c t IH]; intro acc.
  - cbn. lia.
  - cbn [digits_value_from String.length].
    rewrite IH, (IH (0 * 10 + digit_value c)).
    rewrite Nat2Z.inj_succ, Z.pow_succ_r by lia. ring.
Qed.

Lemma is_digit_value (c : ascii) :
  is_digit c = true -> 0 <= digit_value c <= 9.
Proof. intro H. now destruct (digit_facts c H) as (_ & _ & _ & R). Qed.

Lemma digits_value_bounds (s : string) :
  all_digits s = true ->
  0 <= digits_value s < 10 ^ Z.of_nat (String.length s).
Proof.
  unfold digits_value.
  induction s as [|c t IH]; intro H.
  - cbn. lia.
  - cbn [all_digits] in H. apply andb_true_iff in H. destruct H as [Hc Ht].
    cbn [digits_value_from String.length].
    rewrite digits_value_from_shift.
    specialize (IH Ht). fold (digits_value t) in IH.
    pose proof (is_digit_value c Hc).
    rewrite Nat2Z.inj_succ, Z.pow_succ_r by lia.
    nia.
Qed.

Lemma span_digits_fst_digits (s : string) :
  all_digits (fst (span_digits s)) = true.
Proof.
  induction s as [|c t IH]; [reflexivity|].
  cbn [span_digits]. destruct (is_digit c) eqn:E; [|reflexivity].
  destruct (span_digits t) as [ds rest]. cbn [fst all_digits] in *.
  now rewrite E, IH.
Qed.

Lemma span_digits_split (s : string) :
  s = fst (span_digits s) ++ snd (span_digits s).
Proof.
  induction s as [|c t IH]; [reflexivity|].
  cbn [span_digits]. destruct (is_digit c); [|reflexivity].
  destruct (span_digits t) as [ds rest]. cbn [fst snd] in *.
  cbn. now f_equal.
Qed.

Lemma span_digits_app (ds rest : string) :
  all_digits ds = true -> stops rest ->
  span_digits (ds ++ rest) = (ds, rest).
Proof.
  intros Hd Hr. induction ds as [|c t IH].
  - cbn. destruct rest as [|r rest']; [reflexivity|].
    cbn in Hr. cbn [span_digits]. now rewrite Hr.
  - cbn [all_digits] in Hd. apply andb_true_iff in Hd. destruct Hd as [Hc Ht].
    cbn [append span_digits]. rewrite Hc, (IH Ht). reflexivity.
Qed.

Lemma parseInt_digit_run (ds rest : string) :
  ds <> "" -> all_digits ds = true -> stops rest ->
  parseInt (ds ++ rest) = Some (digits_value ds).
Proof.
  intros Hne Hd Hr. destruct ds as [|c t]; [now elim Hne|].
  pose proof Hd as Hd'.
  cbn [all_digits] in Hd. apply andb_true_iff in Hd. destruct Hd as [Hc Ht].
  destruct (digit_facts c Hc) as (S & M & P & _).
  unfold parseInt. cbn [append skip_spaces]. rewrite S, M, P.
  change (String c (t ++ rest)) with (String c t ++ rest).
  rewrite (span_digits_app _ _ Hd' Hr). f_equal. lia.
Qed.

Lemma append_empty_r (s : string) : s ++ "" = s.
Proof. induction s; cbn; congruence. Qed.

Lemma parseInt_digits (ds : string) :
  ds <> "" -> all_digits ds = true -> parseInt ds = Some (digits_value ds).
Proof.
  intros Hne Hd. rewrite <- (append_empty_r ds) at 1.
  now apply parseInt_digit_run.
Qed.


(** *** [parseTime] *)

Lemma spec_parse_clock_time_range (tok : string) (v : Z) :
  spec_parse_clock_time tok = Some v -> 0 <= v <= 1439.
Proof.
  destruct tok as [|a [|b [|c [|d [|e [|f s']]]]]]; try discriminate.
  - cbn [spec_parse_clock_time].
    destruct (is_digit a) eqn:Ha; cbn [andb]; try discriminate.
    destruct (is_time_sep b) eqn:Hb; cbn [andb]; try discriminate.
    destruct (is_digit c) eqn:Hc; cbn [andb]; try discriminate.
    destruct (is_digit d) eqn:Hd; cbn [andb]; try discriminate.
    pose proof (digits_value_bounds (String a "")) as B1.
    pose proof (digits_value_bounds (String c (String d ""))) as B2.
    cbn [all_digits] in B1, B2. rewrite Ha in B1. rewrite Hc, Hd in B2.
    specialize (B1 eq_refl). specialize (B2 eq_refl).
    destruct (digits_value (String a "") <=? 23) eqn:E1; cbn [andb];
      try discriminate.
    destruct (digits_value (String c (String d "")) <=? 59) eqn:E2;
      try discriminate.
    intro H. inversion H. lia.
  - cbn [spec_parse_clock_time].
    destruct (is_digit a) eqn:Ha; cbn [andb]; try discriminate.
    destruct (is_digit b) eqn:Hb; cbn [andb]; try discriminate.
    destruct (is_time_sep c) eqn:Hc; cbn [andb]; try discriminate.
    destruct (is_digit d) eqn:Hd; cbn [andb]; try discriminate.
    destruct (is_digit e) eqn:He; cbn [andb]; try discriminate.
    pose proof (digits_value_bounds (String a (String b ""))) as B1.
    pose proof (digits_value_bounds (String d (String e ""))) as B2.
    cbn [all_digits] in B1, B2. rewrite Ha, Hb in B1. rewrite Hd, He in B2.
    specialize (B1 eq_refl). specialize (B2 eq_refl).
    destruct (digits_value (String a (String b "")) <=? 23) eqn:E1;
      cbn [andb]; try discriminate.
    destruct (digits_value (String d (String e "")) <=? 59) eqn:E2;
      try discriminate.
    intro H. inversion H. lia.
Qed.

Lemma parseTime_bounds (t : option string) (v : Z) :
  parseTime t = Some v -> 0 <= v <= 1439.
Proof.
  destruct t as [s|]; [|discriminate].
  intro H. rewrite parseTime_by_search in H.
  destruct (time_search s) as [[g1 g2]|] eqn:E; [|discriminate].
  destruct (time_search_token _ _ _ E) as (pre & tok & post & _ & V).
  rewrite <- V in H. exact (spec_parse_clock_time_range _ _ H).
Qed.

(** X1.  Whatever [parseTime] returns is a minute of the day, from 0 to 1439,
    with the hours in 0..23 and the minutes in 0..59. *)
Theorem parseTime_is_a_minute_of_the_day (t : option string) (v : Z) :
  parseTime t = Some v ->
  0 <= v <= 1439 /\ 0 <= v / 60 <= 23 /\ 0 <= v mod 60 <= 59.
Proof.
  intro H. pose proof (parseTime_bounds t v H) as B.
  pose proof (Z.mod_pos_bound v 60 ltac:(lia)).
  pose proof (Z.div_mod v 60 ltac:(lia)).
  repeat split; try lia.
Qed.

Lemma parseTime_is_a_minute_of_the_day_witness :
  parseTime (Some "23:59") = Some 1439 /\ 0 <= 1439 <= 1439.
Proof.
  split; [reflexivity|].
  apply (parseTime_is_a_minute_of_the_day (Some "23:59") 1439).
  reflexivity.
Defined.

(** *** [parseDuration] *)

Lemma colon_match_here_value (s g1 g2 : string) :
  colon_match_here s = Some (g1, g2) ->
  exists h m, parseInt g1 = Some h /\ parseInt g2 = Some m
              /\ 0 <= h /\ 0 <= m <= 99 /\ has_digit s = true.
Proof.
  unfold colon_match_here.
  pose proof (span_digits_fst_digits s) as Hd.
  pose proof (span_digits_split s) as Hs.
  destruct (span_digits s) as [ds rest]. cbn [fst snd] in *.
  destruct ds as [|c ds']; [discriminate|].
  destruct rest as [|p [|m1 [|m2 rest']]]; try discriminate.
  destruct (is_time_sep p); cbn [andb]; try discriminate.
  destruct (is_digit m1) eqn:H1; cbn [andb]; try discriminate.
  destruct (is_digit m2) eqn:H2; try discriminate.
  intro H. inversion H. subst g1 g2. clear H.
  exists (digits_value (String c ds')),
         (digit_value m1 * 10 + digit_value m2).
  pose proof (digits_value_bounds _ Hd).
  pose proof (is_digit_value m1 H1). pose proof (is_digit_value m2 H2).
  repeat split; try lia.
  - apply parseInt_digits; [discriminate | exact Hd].
  - now apply parseInt_two_digits.
  - rewrite Hs. cbn [append has_digit].
    cbn [all_digits] in Hd. apply andb_true_iff in Hd. now rewrite (proj1 Hd).
Qed.

Lemma colon_search_value (s g1 g2 : string) :
  colon_search s = Some (g1, g2) ->
  exists h m, parseInt g1 = Some h /\ parseInt g2 = Some m
              /\ 0 <= h /\ 0 <= m <= 99 /\ has_digit s = true.
Proof.
  induction s as [|c t IH]; [discriminate|].
  cbn [colon_search].
  destruct (colon_match_here (String c t)) as [[h m]|] eqn:E.
  - intro H. inversion H. subst h m. exact (colon_match_here_value _ _ _ E).
  - intro H. destruct (IH H) as (h & m & ? & ? & ? & ? & D).
    exists h, m. repeat split; try assumption; try lia.
    cbn [has_digit]. rewrite D. apply orb_true_r.
Qed.

Lemma decimal_match_here_digits (s ip fp : string) :
  decimal_match_here s = Some (ip, fp) ->
  all_digits ip = true /\ all_digits fp = true.
Proof.
  unfold decimal_match_here.
  pose proof (span_digits_fst_digits s) as Hd.
  destruct (span_digits s) as [ds rest]. cbn [fst] in Hd.
  destruct ds as [|c ds']; [discriminate|].
  destruct rest as [|r rest'].
  - intro H. inversion H. subst. now split.
  - destruct (Ascii.eqb r ".").
    + intro H. inversion H. subst. split; [exact Hd|].
      apply span_digits_fst_digits.
    + intro H. inversion H. subst. now split.
Qed.

Lemma decimal_search_digits (s ip fp : string) :
  decimal_search s = Some (ip, fp) ->
  all_digits ip = true /\ all_digits fp = true.
Proof.
  induction s as [|c t IH]; [discriminate|].
  cbn [decimal_search].
  destruct (decimal_match_here (String c t)) as [[a b]|] eqn:E.
  - intro H. inversion H. subst a b. exact (decimal_match_here_digits _ _ _ E).
  - exact IH.
Qed.

Lemma decimal_search_none (s : string) :
  decimal_search s = None <-> has_digit s = false.
Proof.
  induction s as [|c t IH]; [split; reflexivity|].
  cbn [decimal_search has_digit].
  unfold decimal_match_here. cbn [span_digits].
  destruct (is_digit c) eqn:E.
  - destruct (span_digits t) as [ds rest]. cbn [orb].
    split; [|discriminate].
    destruct rest as [|r rest']; [discriminate|].
    destruct (Ascii.eqb r "."); discriminate.
  - cbn [orb]. exact IH.
Qed.

Lemma round_hours_to_minutes_nonneg (ip fp : string) :
  all_digits ip = true -> all_digits fp = true ->
  0 <= round_hours_to_minutes ip fp.
Proof.
  intros Hi Hf. unfold round_hours_to_minutes.
  pose proof (digits_value_bounds ip Hi).
  pose proof (digits_value_bounds fp Hf).
  assert (0 < 10 ^ Z.of_nat (String.length fp)) by (apply Z.pow_pos_nonneg; lia).
  apply Z.div_pos; nia.
Qed.

Lemma parseDuration_none_iff (s : string) :
  parseDuration (Some s) = None <-> has_digit s = false.
Proof.
  destruct s as [|c t]; [split; reflexivity|].
  unfold parseDuration. cbn [truthy_str negb].
  destruct (colon_search (String c t)) as [[g1 g2]|] eqn:E.
  - destruct (colon_search_value _ _ _ E) as (h & m & -> & -> & _ & _ & D).
    rewrite D. split; discriminate.
  - rewrite <- decimal_search_none.
    destruct (decimal_search (String c t)) as [[ip fp]|];
      split; congruence.
Qed.

Lemma parseDuration_nonneg (t : option string) (v : Z) :
  parseDuration t = Some v -> 0 <= v.
Proof.
  destruct t as [s|]; [|discriminate].
  destruct s as [|c t]; [discriminate|].
  unfold parseDuration. cbn [truthy_str negb].
  destruct (colon_search (String c t)) as [[g1 g2]|] eqn:E.
  - destruct (colon_search_value _ _ _ E) as (h & m & -> & -> & Hh & Hm & _).
    intro Hv. inversion Hv. lia.
  - destruct (decimal_search (String c t)) as [[ip fp]|] eqn:D;
      [|discriminate].
    destruct (decimal_search_digits _ _ _ D) as [Hi Hf].
    intro Hv. inversion Hv. now apply round_hours_to_minutes_nonneg.
Qed.

(** X2.  [parseDuration] returns a number exactly for the texts that contain a
    digit, and never a negative one. *)
Theorem parseDuration_needs_one_digit :
  (forall s, parseDuration (Some s) = None <-> has_digit s = false)
  /\ (forall t v, parseDuration t = Some v -> 0 <= v)
  /\ parseDuration None = None.
Proof.
  split; [exact parseDuration_none_iff|].
  split; [exact parseDuration_nonneg | reflexivity].
Qed.

Lemma parseDuration_needs_one_digit_witness :
  parseDuration (Some "about 2 hrs") = Some 120
  /\ parseDuration (Some "UNCLEAR") = None.
Proof.
  destruct parseDuration_needs_one_digit as (Hnone & _ & _).
  split; [reflexivity|].
  apply (Hnone "UNCLEAR"). reflexivity.
Defined.

Lemma uint_string_digits (d : Decimal.uint) :
  all_digits (NilEmpty.string_of_uint d) = true.
Proof. induction d; cbn; auto. Qed.

Lemma uint_string_value (d : Decimal.uint) :
  forall a : N,
    digits_value_from (Z.of_N a) (NilEmpty.string_of_uint d)
    = Z.of_N (match a with
              | N0 => Pos.of_uint d
              | Npos p => Npos (Pos.of_uint_acc d p)
              end).
Proof.
  induction d; intro a;
    cbn [NilEmpty.string_of_uint digits_value_from];
    [ now destruct a | .. ].
  all: match goal with
       | |- digits_value_from (_ * 10 + digit_value ?c) _ = _ =>
           let k := eval vm_compute in (Z.to_N (digit_value c)) in
           replace (Z.of_N a * 10 + digit_value c)
             with (Z.of_N (a * 10 + k)) by (rewrite N2Z.inj_add, N2Z.inj_mul; reflexivity);
           rewrite IHd; destruct a as [|p]; cbn [N.mul N.add Pos.of_uint Pos.of_uint_acc];
           try reflexivity; f_equal; f_equal; f_equal; lia
       end.
Qed.

Lemma uint_string_nonempty (d : Decimal.uint) :
  d <> Decimal.Nil -> NilEmpty.string_of_uint d <> "".
Proof. destruct d; intro H; try discriminate. now elim H. Qed.

Lemma NilZero_string_of_uint (d : Decimal.uint) :
  d <> Decimal.Nil ->
  NilZero.string_of_uint d = NilEmpty.string_of_uint d.
Proof. destruct d; intro H; try reflexivity. now elim H. Qed.

Lemma toString_digits (n : Z) :
  0 <= n ->
  toString n <> "" /\ all_digits (toString n) = true
  /\ digits_value (toString n) = n.
Proof.
  intro Hn. destruct n as [|p|p]; [repeat split; discriminate | | lia].
  unfold toString. cbn [Z.to_int NilZero.string_of_int].
  pose proof (Unsigned.to_uint_nonnil p) as Hnil.
  rewrite (NilZero_string_of_uint _ Hnil).
  split; [now apply uint_string_nonempty|].
  split; [apply uint_string_digits|].
  pose proof (uint_string_value (Pos.to_uint p) 0%N) as V.
  cbn [Z.of_N] in V. unfold digits_value. rewrite V, Unsigned.of_to.
  reflexivity.
Qed.

Lemma two_digit_minutes (m : Z) :
  0 <= m < 60 ->
  exists a b,
    padStart2 (toString m) = String a (String b "")
    /\ is_digit a = true /\ is_digit b = true
    /\ digit_value a * 10 + digit_value b = m.
Proof.
  intro H.
  replace m with (Z.of_nat (Z.to_nat m)) by lia.
  assert (Z.to_nat m < 60)%nat as Hk by lia.
  generalize dependent (Z.to_nat m). clear m H. intros k Hk.
  do 60 (destruct k as [|k];
         [do 2 eexists; split; [vm_compute; reflexivity|];
          repeat split; reflexivity|]).
  lia.
Qed.

(** X3.  A duration written by [formatDuration], a whole number of minutes from
    0 up to the largest safe integer, is read back by [parseDuration]. *)
Theorem parseDuration_formatDuration (n : Z) :
  0 <= n <= MAX_SAFE_INTEGER ->
  parseDuration (Some (formatDuration (Some n))) = Some n.
Proof.
  intros [Hn _]. unfold formatDuration.
  assert (0 <= n / 60) as Hh by (apply Z.div_pos; lia).
  destruct (toString_digits (n / 60) Hh) as (Hne & Hd & Hv).
  assert (0 <= Z.rem n 60 < 60) as Hm
    by (rewrite Z.rem_mod_nonneg by lia; apply Z.mod_pos_bound; lia).
  destruct (two_digit_minutes _ Hm) as (a & b & -> & Ha & Hb & Hab).
  set (ds := toString (n / 60)) in *.
  assert (colon_match_here (ds ++ String ":" (String a (String b "")))
          = Some (ds, String a (String b ""))) as Hmatch.
  { unfold colon_match_here.
    rewrite (span_digits_app ds _ Hd) by reflexivity.
    destruct ds as [|c t]; [now elim Hne|].
    now rewrite Ha, Hb. }
  destruct ds as [|c t] eqn:Eds; [now elim Hne|].
  unfold parseDuration. cbn [append truthy_str negb colon_search].
  cbn [append] in Hmatch. rewrite Hmatch.
  rewrite (parseInt_digits (String c t)) by (discriminate || assumption).
  rewrite (parseInt_two_digits a b Ha Hb), Hv, Hab.
  f_equal. rewrite Z.rem_mod_nonneg by lia.
  pose proof (Z.div_mod n 60). lia.
Qed.

Lemma parseDuration_formatDuration_witness :
  formatDuration (Some 95) = "1:35"
  /\ parseDuration (Some (formatDuration (Some 95))) = Some 95.
Proof.
  split; [reflexivity|].
  apply (parseDuration_formatDuration 95). unfold MAX_SAFE_INTEGER. lia.
Defined.

Lemma digit_is_decimal (c : ascii) (d : Decimal.uint) :
  is_digit c = true -> exists d', uint_of_char c (Some d) = Some d'.
Proof.
  destruct c as [[] [] [] [] [] [] [] []]; cbv; intro H;
    try discriminate H; eexists; reflexivity.
Qed.

Lemma digits_are_decimal (s : string) :
  all_digits s = true ->
  exists d, NilEmpty.uint_of_string s = Some d
            /\ NilEmpty.string_of_uint d = s.
Proof.
  induction s as [|c t IH]; intro H.
  - exists Decimal.Nil. split; reflexivity.
  - cbn [all_digits] in H. apply andb_true_iff in H. destruct H as [Hc Ht].
    destruct (IH Ht) as (d & Hd & _).
    destruct (digit_is_decimal c d Hc) as (d' & Hd').
    exists d'.
    assert (NilEmpty.uint_of_string (String c t) = Some d') as E
      by (cbn [NilEmpty.uint_of_string]; now rewrite Hd).
    split; [exact E | now apply NilEmpty.sus].
Qed.

Lemma toString_of_canonical (s : string) :
  canonical_number s = true -> toString (digits_value s) = s.
Proof.
  intro H. destruct s as [|c t]; [discriminate|].
  unfold canonical_number in H. apply andb_true_iff in H.
  destruct H as [Hd Hz].
  destruct (digits_are_decimal _ Hd) as (d & _ & Hs).
  pose proof (uint_string_value d 0%N) as V. cbn [Z.of_N] in V.
  unfold digits_value. rewrite <- Hs, V.
  pose proof (Unsigned.to_of d) as T.
  destruct d; cbn in Hs; try discriminate Hs;
    injection Hs as Hc Ht; subst c.
  1: { (* a zero in front: the text is the single digit 0 *)
       cbn in Hz. apply String.eqb_eq in Hz. subst t.
       destruct d; try discriminate Ht. reflexivity. }
  all: cbn [Pos.of_uint] in *; unfold toString;
    cbn [Z.of_N Z.to_int NilZero.string_of_int];
    rewrite NilZero_string_of_uint by apply Unsigned.to_uint_nonnil;
    cbn [N.to_uint] in T; rewrite T; reflexivity.
Qed.

Lemma parseDuration_colon_text (hs : string) (sep a b : ascii) :
  hs <> "" -> all_digits hs = true -> is_time_sep sep = true ->
  is_digit a = true -> is_digit b = true ->
  parseDuration (Some (hs ++ String sep (String a (String b ""))))
  = Some (digits_value hs * 60 + (digit_value a * 10 + digit_value b)).
Proof.
  intros Hne Hd Hsep Ha Hb.
  assert (is_digit sep = false) as Hstop
    by (destruct sep as [[] [] [] [] [] [] [] []]; cbv in Hsep |- *;
        congruence).
  assert (colon_match_here (hs ++ String sep (String a (String b "")))
          = Some (hs, String a (String b ""))) as Hmatch.
  { unfold colon_match_here.
    rewrite (span_digits_app hs _ Hd) by exact Hstop.
    destruct hs as [|c t]; [now elim Hne|].
    now rewrite Hsep, Ha, Hb. }
  destruct hs as [|c t] eqn:E; [now elim Hne|].
  unfold parseDuration. cbn [append truthy_str negb colon_search].
  cbn [append] in Hmatch. rewrite Hmatch.
  rewrite (parseInt_digits (String c t)) by (discriminate || assumption).
  now rewrite (parseInt_two_digits a b Ha Hb).
Qed.

Lemma digit_of_value (c : ascii) :
  is_digit c = true ->
  c = ascii_of_nat (Z.to_nat (digit_value c) + 48).
Proof.
  destruct c as [[] [] [] [] [] [] [] []]; cbv; intro H;
    try discriminate H; reflexivity.
Qed.

(** X4.  A canonical [H:MM] text, minutes below 60 and the whole within the
    safe integers, comes back from [formatDuration] after [parseDuration]
    as it was. *)
Theorem formatDuration_parseDuration (hs : string) (a b : ascii) :
  canonical_number hs = true ->
  is_digit a = true -> is_digit b = true ->
  digit_value a * 10 + digit_value b < 60 ->
  digits_value hs * 60 + (digit_value a * 10 + digit_value b)
    <= MAX_SAFE_INTEGER ->
  formatDuration
    (parseDuration (Some (hs ++ String ":" (String a (String b "")))))
  = hs ++ String ":" (String a (String b "")).
Proof.
  intros Hc Ha Hb Hm _.
  assert (hs <> "" /\ all_digits hs = true) as [Hne Hd].
  { destruct hs as [|c t]; [discriminate|].
    unfold canonical_number in Hc. apply andb_true_iff in Hc.
    split; [discriminate | apply Hc]. }
  rewrite (parseDuration_colon_text hs ":" a b Hne Hd eq_refl Ha Hb).
  pose proof (digits_value_bounds hs Hd) as Bh.
  pose proof (is_digit_value a Ha) as Ba.
  pose proof (is_digit_value b Hb) as Bb.
  set (h := digits_value hs) in *.
  set (m := digit_value a * 10 + digit_value b) in *.
  unfold formatDuration.
  assert ((h * 60 + m) / 60 = h) as ->
    by (symmetry; apply (Z.div_unique _ 60 h m); lia).
  assert (Z.rem (h * 60 + m) 60 = m) as ->.
  { rewrite Z.rem_mod_nonneg by lia.
    symmetry. apply (Z.mod_unique _ 60 h m); lia. }
  unfold h. rewrite (toString_of_canonical hs Hc).
  destruct (two_digit_minutes m) as (a2 & b2 & -> & Ha2 & Hb2 & Hab);
    [lia|].
  pose proof (is_digit_value a2 Ha2). pose proof (is_digit_value b2 Hb2).
  assert (digit_value a2 = digit_value a) as Ea by (unfold m in Hab; lia).
  assert (digit_value b2 = digit_value b) as Eb by (unfold m in Hab; lia).
  rewrite (digit_of_value a2 Ha2), (digit_of_value b2 Hb2), Ea, Eb.
  rewrite <- (digit_of_value a Ha), <- (digit_of_value b Hb).
  reflexivity.
Qed.

Lemma formatDuration_parseDuration_witness :
  formatDuration (parseDuration (Some "12:05")) = "12:05".
Proof.
  apply (formatDuration_parseDuration "12" "0" "5"); try reflexivity.
  vm_compute. discriminate.
Defined.




Lemma digit_not_date_sep (c : ascii) :
  is_digit c = true -> is_date_sep c = false.
Proof.
  destruct c as [[] [] [] [] [] [] [] []]; cbv; intro H;
    try discriminate H; reflexivity.
Qed.

Lemma split_date_number (ds : string) :
  all_digits ds = true -> split_date ds = [ds].
Proof.
  induction ds as [|c t IH]; [reflexivity|].
  cbn [all_digits]. intro H. apply andb_true_iff in H. destruct H as [Hc Ht].
  cbn [split_date]. now rewrite (digit_not_date_sep c Hc), (IH Ht).
Qed.

Lemma split_date_number_sep (ds rest : string) (sep : ascii) :
  all_digits ds = true -> is_date_sep sep = true ->
  split_date (ds ++ String sep rest) = ds :: split_date rest.
Proof.
  intros Hd Hs. induction ds as [|c t IH].
  - cbn [append split_date]. now rewrite Hs.
  - cbn [all_digits] in Hd. apply andb_true_iff in Hd. destruct Hd as [Hc Ht].
    cbn [append split_date]. now rewrite (digit_not_date_sep c Hc), (IH Ht).
Qed.

Lemma month_start_bounds (leap : bool) (mn : Z) :
  0 <= month_start leap mn <= 335.
Proof.
  unfold month_start. destruct leap;
  repeat match goal with
         | |- context [match ?x with _ => _ end] => destruct x
         end; lia.
Qed.

Lemma short_number_facts (s : string) :
  short_number s = true ->
  s <> "" /\ all_digits s = true /\ 0 <= digits_value s <= 9999.
Proof.
  unfold short_number. intro H.
  apply andb_true_iff in H. destruct H as [H H4].
  apply andb_true_iff in H. destruct H as [Hd H1].
  apply Nat.leb_le in H1, H4.
  split; [destruct s; [cbn in H1; lia | discriminate]|].
  split; [exact Hd|].
  pose proof (digits_value_bounds s Hd) as B.
  assert (10 ^ Z.of_nat (String.length s) <= 10 ^ 4)
    by (apply Z.pow_le_mono_r; lia).
  lia.
Qed.

(** X6.  [parseDate] has no calendar check: any three numbers of up to four
    digits, with any of the separators, give a date, with days and months
    out of range carried over by [MakeDay]. *)
Theorem parseDate_accepts_any_three_numbers
  (tza : Z) (ds ms ys : string) (sep1 sep2 : ascii) :
  Z.abs tza <= msPerDay ->
  short_number ds = true -> short_number ms = true ->
  short_number ys = true ->
  is_date_sep sep1 = true -> is_date_sep sep2 = true ->
  parseDate tza (Some (ds ++ String sep1 (ms ++ String sep2 ys)))
  = Some (MakeDay (full_year (digits_value ys)) (digits_value ms - 1)
                  (digits_value ds) * msPerDay - tza).
Proof.
  intros Htza Hds Hms Hys H1 H2.
  destruct (short_number_facts ds Hds) as (Nd & Dd & Bd).
  destruct (short_number_facts ms Hms) as (Nm & Dm & Bm).
  destruct (short_number_facts ys Hys) as (Ny & Dy & By).
  unfold parseDate.
  assert (truthy_str (Some (ds ++ String sep1 (ms ++ String sep2 ys))) = true)
    as -> by (destruct ds; [now elim Nd | reflexivity]).
  cbn [negb].
  rewrite (split_date_number_sep ds _ sep1 Dd H1),
          (split_date_number_sep ms _ sep2 Dm H2),
          (split_date_number ys Dy).
  rewrite (parseInt_digits ds Nd Dd), (parseInt_digits ms Nm Dm),
          (parseInt_digits ys Ny Dy).
  cbn [option_map]. fold (full_year (digits_value ys)).
  set (d := digits_value ds) in *. set (m := digits_value ms) in *.
  set (y := digits_value ys) in *.
  assert (100 <= full_year y <= 9999) as Hy.
  { unfold full_year.
    destruct (Z.ltb_spec y 100); [destruct (Z.gtb_spec y 50)|]; lia. }
  unfold new_Date.
  assert ((0 <=? full_year y) && (full_year y <=? 99) = false) as ->.
  { apply andb_false_iff. right. apply Z.leb_gt. lia. }
  unfold TimeClip.
  set (day := MakeDay (full_year y) (m - 1) d).
  assert (-1000000 <= day <= 5000000) as Hday.
  { unfold day, MakeDay, DayFromYear.
    pose proof (month_start_bounds
                  (InLeapYear (full_year y + (m - 1) / 12)) ((m - 1) mod 12)).
    generalize dependent (month_start
                  (InLeapYear (full_year y + (m - 1) / 12)) ((m - 1) mod 12)).
    intros ms0 Hms0.
    generalize dependent (full_year y). intros fy Hfy.
    Z.div_mod_to_equations. lia. }
  unfold msPerDay in *.
  destruct (Z.leb_spec (Z.abs (day * 86400000 - tza)) 8640000000000000);
    [reflexivity | lia].
Qed.

Lemma parseDate_accepts_any_three_numbers_witness :
  parseDate 36000000 (Some "45/13/2024")
  = Some (MakeDay 2024 12 45 * msPerDay - 36000000).
Proof.
  apply (parseDate_accepts_any_three_numbers 36000000 "45" "13" "2024" "/" "/");
    try reflexivity.
  vm_compute. discriminate.
Defined.

End ParserFacts.

(** ** One row: which rows are valid, and their duration *)

Module RowFacts.

Import JSString JSDate Scanner Spec Rules RationalTests RowProps ParserProps ParserFacts.
Open Scope string_scope.
Open Scope Z_scope.

Lemma str_is_eq (v : option string) (lit : string) :
  str_is v lit = true -> v = Some lit.
Proof.
  destruct v as [s|]; [|discriminate]. cbn. intro H.
  apply String.eqb_eq in H. now subst.
Qed.

Lemma endpoint_minutes_is_parseTime (t : option string) :
  endpoint_minutes t = parseTime t.
Proof.
  unfold endpoint_minutes.
  destruct (truthy_str t) eqn:T; cbn [andb].
  - destruct (str_is t "UNCLEAR") eqn:U; [|reflexivity].
    apply str_is_eq in U. subst t. reflexivity.
  - unfold parseTime. now rewrite T.
Qed.

Lemma minutes_between_bounds (e : LogbookEntry) (d : Z) :
  minutes_between e = Some d -> 0 <= d <= 1439.
Proof.
  unfold minutes_between. rewrite !endpoint_minutes_is_parseTime.
  destruct (parseTime (startTime e)) as [st|] eqn:Es; [|discriminate].
  destruct (parseTime (finishTime e)) as [fi|] eqn:Ef; [|discriminate].
  pose proof (parseTime_bounds _ _ Es) as Bs.
  pose proof (parseTime_bounds _ _ Ef) as Bf.
  intro Hd. inversion Hd. destruct (Z.ltb_spec fi st); lia.
Qed.

(** X7.  The computed duration of a row is the difference of the parsed
    endpoints, a finish before the start counted as past midnight; it lies
    between 0 and 1439 minutes; and there is none when an endpoint does not
    parse. *)
Theorem computed_duration_wraps_at_midnight
  (tza today : Z) (e : LogbookEntry) (total : Z) :
  (forall st fi,
     parseTime (startTime e) = Some st ->
     parseTime (finishTime e) = Some fi ->
     calculatedDuration (fst (validateEntry tza today e total))
     = Some (if fi <? st then fi + 1440 - st else fi - st)
     /\ 0 <= (if fi <? st then fi + 1440 - st else fi - st) <= 1439)
  /\ (parseTime (startTime e) = None \/ parseTime (finishTime e) = None ->
      calculatedDuration (fst (validateEntry tza today e total)) = None).
Proof.
  destruct (validateEntry_values tza today e total) as (_ & C & _).
  rewrite C. unfold minutes_between.
  rewrite !endpoint_minutes_is_parseTime.
  split.
  - intros st fi Es Ef. rewrite Es, Ef.
    pose proof (parseTime_bounds _ _ Es).
    pose proof (parseTime_bounds _ _ Ef).
    destruct (Z.ltb_spec fi st); (split; [f_equal; lia | lia]).
  - intros [H|H]; rewrite H; [reflexivity|].
    now destruct (parseTime (startTime e)).
Qed.

Lemma computed_duration_wraps_at_midnight_witness :
  calculatedDuration
    (validated_row brisbane
       (row (Some "5/3/24") (Some "23:30") (Some "00:15") None None None))
  = Some 45.
Proof.
  destruct (computed_duration_wraps_at_midnight
              (LocalTZA brisbane)
              (setHours_end_of_day (LocalTZA brisbane) (now brisbane))
              (row (Some "5/3/24") (Some "23:30") (Some "00:15")
                   None None None) 0) as [H _].
  exact (proj1 (H 1410 15 eq_refl eq_refl)).
Defined.

(** *** What each step adds to the errors, and when it adds nothing *)

Local Abbreviation adds l l' ok :=
  (exists es, entryErrors l' = (entryErrors l ++ es)%list
              /\ (List.length es =? 0)%nat = ok).

Ltac added_none := exists []; rewrite app_nil_r; split; reflexivity.
Ltac added_some := eexists; split; [reflexivity | reflexivity].

Lemma check_unclear_adds (e : LogbookEntry) (l : rowlog) :
  adds l (check_unclear e l)
       (negb (str_is (date e) "UNCLEAR")
        && negb (str_is (startTime e) "UNCLEAR"
                 || str_is (finishTime e) "UNCLEAR")).
Proof.
  unfold check_unclear.
  destruct (str_is (date e) "UNCLEAR");
  destruct (str_is (startTime e) "UNCLEAR");
  destruct (str_is (finishTime e) "UNCLEAR");
  destruct (str_is (totalTime e) "UNCLEAR");
  cbn [orb andb negb push_error push_warning entryErrors entryWarnings];
  rewrite <- ?app_assoc; cbn [app];
  first [added_none | added_some].
Qed.

Lemma check_date_adds (tza today : Z) (e : LogbookEntry) (l : rowlog) :
  adds l (snd (check_date tza today e l))
       (if truthy_str (date e) && negb (str_is (date e) "UNCLEAR")
        then match parseDate tza (date e) with
             | Some d => negb (d >? today)
             | None => false
             end
        else true).
Proof.
  unfold check_date.
  destruct (truthy_str (date e) && negb (str_is (date e) "UNCLEAR"));
    [|added_none].
  destruct (parseDate tza (date e)) as [d|]; [|added_some].
  destruct (d >? today); [added_some|].
  destruct (d <? earliestDate); added_none.
Qed.

Lemma check_time_adds (fld : string) (bad : string -> message)
  (t : option string) (l : rowlog) :
  adds l (snd (check_time fld bad t l))
       (if truthy_str t && negb (str_is t "UNCLEAR")
        then is_some (parseTime t) else true).
Proof.
  unfold check_time.
  destruct (truthy_str t && negb (str_is t "UNCLEAR")); [|added_none].
  destruct (parseTime t); [added_none | added_some].
Qed.

Lemma check_duration_adds (e : LogbookEntry) (st fi : option Z)
  (total : Z) (l : rowlog) :
  adds l (snd (check_duration e st fi total l))
       (match st, fi with
        | Some s, Some f =>
            let cd := (if f <? s then f + 24 * 60 else f) - s in
            negb (cd <? minSessionMinutes)
            && (if truthy_str (totalTime e)
                   && negb (str_is (totalTime e) "UNCLEAR")
                then match parseDuration (totalTime e) with
                     | Some r => negb (Z.abs (cd - r) >? 5)
                     | None => true
                     end
                else true)
        | _, _ => true
        end).
Proof.
  unfold check_duration.
  destruct st as [s|]; [destruct fi as [f|]|]; [|added_none|added_none].
  cbn [snd]. cbv zeta.
  set (cd := (if f <? s then f + 24 * 60 else f) - s).
  destruct (cd <? minSessionMinutes);
  destruct (cd >? maxSessionHours * 60);
  destruct (truthy_str (totalTime e) && negb (str_is (totalTime e) "UNCLEAR"));
  try destruct (parseDuration (totalTime e)) as [r|];
  try destruct (Z.abs (cd - r) >? 5);
  cbn [andb negb push_error push_warning entryErrors entryWarnings];
  rewrite <- ?app_assoc; cbn [app];
  first [added_none | added_some].
Qed.

Lemma length_zero_app {A} (a b : list A) :
  (List.length (a ++ b) =? 0)%nat
  = ((List.length a =? 0)%nat && (List.length b =? 0)%nat).
Proof. destruct a; [reflexivity|]. reflexivity. Qed.

(** *** The declarative readings agree with the steps *)

Lemma truthy_unclear (t : option string) :
  str_is t "UNCLEAR" = true -> truthy_str t = true.
Proof. intro H. apply str_is_eq in H. now subst. Qed.

Lemma date_step_reading (tza today : Z) (d : option string) :
  negb (str_is d "UNCLEAR")
  && (if truthy_str d && negb (str_is d "UNCLEAR")
      then match parseDate tza d with
           | Some t => negb (t >? today)
           | None => false
           end
      else true)
  = date_acceptable tza today d.
Proof.
  unfold date_acceptable.
  destruct (str_is d "UNCLEAR") eqn:U.
  - apply str_is_eq in U. subst d. reflexivity.
  - cbn [negb andb]. rewrite andb_true_r.
    destruct (truthy_str d); cbn [negb orb]; [|reflexivity].
    destruct (parseDate tza d) as [t|]; [|reflexivity].
    rewrite Z.gtb_ltb, <- Z.leb_antisym. reflexivity.
Qed.

Lemma time_step_reading (t : option string) :
  negb (str_is t "UNCLEAR")
  && (if truthy_str t && negb (str_is t "UNCLEAR")
      then is_some (parseTime t) else true)
  = time_acceptable t.
Proof.
  unfold time_acceptable.
  destruct (str_is t "UNCLEAR") eqn:U.
  - apply str_is_eq in U. subst t. reflexivity.
  - cbn [negb andb]. rewrite andb_true_r.
    now destruct (truthy_str t).
Qed.

Lemma duration_step_reading (e : LogbookEntry) :
  match endpoint_minutes (startTime e), endpoint_minutes (finishTime e) with
  | Some s, Some f =>
      let cd := (if f <? s then f + 24 * 60 else f) - s in
      negb (cd <? minSessionMinutes)
      && (if truthy_str (totalTime e)
             && negb (str_is (totalTime e) "UNCLEAR")
          then match parseDuration (totalTime e) with
               | Some r => negb (Z.abs (cd - r) >? 5)
               | None => true
               end
          else true)
  | _, _ => true
  end
  = duration_acceptable e.
Proof.
  unfold duration_acceptable, minutes_between.
  destruct (endpoint_minutes (startTime e)) as [s|]; [|reflexivity].
  destruct (endpoint_minutes (finishTime e)) as [f|]; [|reflexivity].
  cbv zeta. set (cd := (if f <? s then f + 24 * 60 else f) - s).
  rewrite <- Z.leb_antisym. f_equal.
  destruct (truthy_str (totalTime e)) eqn:T; cbn [andb].
  - destruct (str_is (totalTime e) "UNCLEAR") eqn:U; cbn [negb].
    + apply str_is_eq in U. rewrite U. reflexivity.
    + destruct (parseDuration (totalTime e)) as [r|]; [|reflexivity].
      rewrite Z.gtb_ltb, <- Z.leb_antisym. reflexivity.
  - unfold parseDuration. now rewrite T.
Qed.

Lemma validateEntry_isValid
  (tza today : Z) (e : LogbookEntry) (total : Z) :
  isValid (fst (validateEntry tza today e total)) = row_acceptable tza today e.
Proof.
  destruct (validateEntry_values tza today e total) as (_ & _ & _ & V & _).
  rewrite V. clear V. unfold validateEntry.
  set (l0 := {| entryErrors := []; entryWarnings := [] |}).
  destruct (check_unclear_adds e l0) as (es0 & G0 & K0).
  destruct (check_date_adds tza today e (check_unclear e l0))
    as (es1 & G1 & K1).
  destruct (check_date tza today e (check_unclear e l0)) as [pd l1].
  destruct (check_time_adds "startTime" InvalidStartTime (startTime e) l1)
    as (es2 & G2 & K2).
  pose proof (check_time_value "startTime" InvalidStartTime (startTime e) l1)
    as V2.
  destruct (check_time "startTime" InvalidStartTime (startTime e) l1)
    as [st l2].
  destruct (check_time_adds "finishTime" InvalidFinishTime (finishTime e) l2)
    as (es3 & G3 & K3).
  pose proof (check_time_value "finishTime" InvalidFinishTime (finishTime e) l2)
    as V3.
  destruct (check_time "finishTime" InvalidFinishTime (finishTime e) l2)
    as [fi l3].
  destruct (check_duration_adds e st fi total l3) as (es4 & G4 & K4).
  destruct (check_duration e st fi total l3) as [[cd total'] l4].
  cbn [fst snd errors] in *. subst st fi.
  rewrite check_confidence_errors, check_odometer_errors,
    check_signature_errors, G4, G3, G2, G1, G0.
  cbn [entryErrors app].
  rewrite !length_zero_app, K0, K1, K2, K3, K4.
  rewrite duration_step_reading.
  unfold row_acceptable.
  rewrite <- date_step_reading, <- !time_step_reading.
  clear.
  generalize (duration_acceptable e).
  generalize (if truthy_str (finishTime e)
                 && negb (str_is (finishTime e) "UNCLEAR")
              then is_some (parseTime (finishTime e)) else true).
  generalize (if truthy_str (startTime e)
                 && negb (str_is (startTime e) "UNCLEAR")
              then is_some (parseTime (startTime e)) else true).
  generalize (if truthy_str (date e) && negb (str_is (date e) "UNCLEAR")
              then match parseDate tza (date e) with
                   | Some d => negb (d >? today)
                   | None => false
                   end
              else true).
  destruct (odometer_backwards e), (str_is (date e) "UNCLEAR"),
    (str_is (startTime e) "UNCLEAR"), (str_is (finishTime e) "UNCLEAR");
    intros [] [] [] []; reflexivity.
Qed.

(** X8.  Two rows that agree on date, times, recorded duration and odometer are
    both valid or both invalid: a missing signature, a low confidence, the
    names and the notes never make a row invalid. *)
Theorem validity_ignores_unchecked_fields
  (tza today : Z) (e e' : LogbookEntry) (total total' : Z) :
  same_checked_fields e e' ->
  isValid (fst (validateEntry tza today e total))
  = isValid (fst (validateEntry tza today e' total')).
Proof.
  intros (Hd & Hs & Hf & Ht & Hos & Hof).
  rewrite !validateEntry_isValid.
  unfold row_acceptable, duration_acceptable, minutes_between,
    odometer_backwards.
  now rewrite Hd, Hs, Hf, Ht, Hos, Hof.
Qed.

Lemma validity_ignores_unchecked_fields_witness :
  isValid (validated_row brisbane row_ok)
  = isValid (fst (validateEntry (LocalTZA brisbane)
                    (setHours_end_of_day (LocalTZA brisbane) (now brisbane))
                    {| rowNumber := None; date := Some "5/3/24";
                       weather := None; supervisorName := Some "UNCLEAR";
                       licenceNumber := None; startTime := Some "10:00";
                       finishTime := Some "11:00"; totalTime := Some "1:00";
                       hasSignature := false; odometerStart := None;
                       odometerFinish := None; confidence := Some "low";
                       notes := None |} 0)).
Proof.
  apply validity_ignores_unchecked_fields.
  repeat split.
Defined.

Lemma valid_row_has_spec_duration (tza today : Z) (e : LogbookEntry)
  (total : Z) :
  isValid (fst (validateEntry tza today e total)) = true ->
  durationMinutes (fst (validateEntry tza today e total))
  = spec_durationMinutes (fst (validateEntry tza today e total)).
Proof.
  intro Hv. rewrite validateEntry_isValid in Hv.
  destruct (validateEntry_values tza today e total) as (En & C & D & _ & _).
  unfold spec_durationMinutes. rewrite D, C, En.
  unfold row_acceptable in Hv.
  apply andb_true_iff in Hv. destruct Hv as [Hv _].
  apply andb_true_iff in Hv. destruct Hv as [_ Hdur].
  unfold duration_acceptable in Hdur.
  destruct (minutes_between e) as [cd|] eqn:M; [|reflexivity].
  apply andb_true_iff in Hdur. destruct Hdur as [H5 _].
  apply Z.leb_le in H5. unfold minSessionMinutes in H5.
  unfold js_or, truthy_int.
  destruct (Z.eqb_spec cd 0); [lia | reflexivity].
Qed.

(** X9.  On a valid row [durationMinutes] is the computed duration when there is
    one and else the recorded duration when it parses; a computed duration
    is then at least 5 minutes, and no duration is negative. *)
Theorem valid_row_duration (tza today : Z) (e : LogbookEntry) (total : Z) :
  isValid (fst (validateEntry tza today e total)) = true ->
  durationMinutes (fst (validateEntry tza today e total))
  = spec_durationMinutes (fst (validateEntry tza today e total))
  /\ (forall cd,
        calculatedDuration (fst (validateEntry tza today e total)) = Some cd ->
        5 <= cd)
  /\ (forall d,
        durationMinutes (fst (validateEntry tza today e total)) = Some d ->
        0 <= d).
Proof.
  intro Hv. pose proof (valid_row_has_spec_duration _ _ _ _ Hv) as Hs.
  split; [exact Hs|].
  rewrite validateEntry_isValid in Hv.
  destruct (validateEntry_values tza today e total) as (En & C & D & _ & _).
  unfold row_acceptable in Hv.
  apply andb_true_iff in Hv. destruct Hv as [Hv _].
  apply andb_true_iff in Hv. destruct Hv as [_ Hdur].
  unfold duration_acceptable, minSessionMinutes in Hdur.
  assert (forall cd, minutes_between e = Some cd -> 5 <= cd) as H5.
  { intros cd M. rewrite M in Hdur. apply andb_true_iff in Hdur.
    now apply Z.leb_le. }
  split; [now rewrite C|].
  rewrite Hs. unfold spec_durationMinutes. rewrite C, En.
  intros d Hd. destruct (minutes_between e) as [cd|].
  - inversion Hd. subst. specialize (H5 d eq_refl). lia.
  - exact (parseDuration_nonneg _ _ Hd).
Qed.

Lemma valid_row_duration_witness :
  durationMinutes (validated_row brisbane row_ok) = Some 60.
Proof.
  destruct (valid_row_duration
              (LocalTZA brisbane)
              (setHours_end_of_day (LocalTZA brisbane) (now brisbane))
              row_ok 0) as [H _]; [reflexivity|].
  unfold validated_row. rewrite H. reflexivity.
Defined.

End RowFacts.

(** ** One page: errors, totals *)

Module PageFacts.

Import JSString JSDate Scanner Spec Rules RationalTests RowProps PageProps ParserProps ParserFacts RowFacts.
Open Scope string_scope.
Open Scope Z_scope.

(** *** The page result and its rows *)

Lemma scan_fold_errors (tza today : Z) (rows : list LogbookEntry) :
  forall st,
    st_errors (fold_left (scan_step tza today) rows st)
    = (st_errors st
       ++ flat_map
            (fun e => map (fun i => (Row (rowNumber e), i))
                          (errors (fst (validateEntry tza today e 0))))
            rows)%list.
Proof.
  induction rows as [|e rows IH]; intro st.
  - cbn. now rewrite app_nil_r.
  - cbn [fold_left flat_map]. rewrite IH. clear IH.
    unfold scan_step.
    pose proof (validateEntry_total_irrelevant
                  tza today e (st_totalMinutes st) 0) as I.
    destruct (validateEntry tza today e (st_totalMinutes st)) as [v total].
    cbn [fst] in I. subst v. cbn [st_errors].
    now rewrite <- app_assoc.
Qed.

Lemma flat_map_empty_iff {A B} (f : A -> list B) (l : list A) :
  (0 <? List.length (flat_map f l))%nat
  = negb (forallb (fun a => (List.length (f a) =? 0)%nat) l).
Proof.
  induction l as [|a l IH]; [reflexivity|].
  cbn [flat_map forallb]. rewrite length_app.
  destruct (f a); cbn [List.length Nat.add Nat.eqb andb]; [exact IH|].
  reflexivity.
Qed.

Lemma rows_without_errors (h : host) (rows : list LogbookEntry) :
  forallb
    (fun e => (List.length
                 (map (fun i => (Row (rowNumber e), i))
                      (errors (validated_row h e))) =? 0)%nat)
    rows
  = forallb isValid (map (validated_row h) rows).
Proof.
  induction rows as [|e rows IH]; [reflexivity|].
  cbn [forallb map]. rewrite IH, length_map. f_equal. unfold validated_row.
  destruct (validateEntry_values
              (LocalTZA h) (setHours_end_of_day (LocalTZA h) (now h)) e 0)
    as (_ & _ & _ & V & _).
  now rewrite V.
Qed.

(** X10.  The page result keeps one validated row per extracted row; its errors
    are the errors of the rows, in order, each with its row number, and the
    declared subtotal never adds one; [hasErrors] says whether some row is
    invalid; and the count of valid rows is at most the count of rows. *)
Theorem page_errors_are_row_errors (h : host) (x : ExtractionResult) :
  let r := validateEntries h x in
  t_entries (totals r) = List.length (x_entries x)
  /\ scan_errors r
     = flat_map
         (fun e => map (fun i => (Row (rowNumber e), i))
                       (errors (validated_row h e)))
         (x_entries x)
  /\ hasErrors r = negb (forallb isValid (entries r))
  /\ (validEntries (totals r) <= t_entries (totals r))%nat
  /\ (hasErrors r = false <-> validEntries (totals r) = t_entries (totals r)).
Proof.
  cbv zeta.
  pose proof (entries_validateEntries h x) as En.
  assert (scan_errors (validateEntries h x)
          = flat_map
              (fun e => map (fun i => (Row (rowNumber e), i))
                            (errors (validated_row h e)))
              (x_entries x)) as Er.
  { unfold validateEntries. cbn [scan_errors].
    rewrite scan_fold_errors. reflexivity. }
  assert (hasErrors (validateEntries h x)
          = negb (forallb isValid (entries (validateEntries h x)))) as Hh.
  { change (hasErrors (validateEntries h x))
      with (nonempty (scan_errors (validateEntries h x))).
    rewrite Er, En. unfold nonempty. rewrite flat_map_empty_iff.
    f_equal. apply rows_without_errors. }
  assert (t_entries (totals (validateEntries h x))
          = List.length (entries (validateEntries h x))) as Ht
    by reflexivity.
  assert (validEntries (totals (validateEntries h x))
          = List.length (filter isValid (entries (validateEntries h x))))
    as Hv by reflexivity.
  split; [now rewrite Ht, En, length_map|].
  split; [exact Er|]. split; [exact Hh|].
  rewrite Hh, Ht, Hv. clear.
  generalize (entries (validateEntries h x)). intro l.
  split; [apply filter_length_le|].
  rewrite negb_false_iff.
  induction l as [|v l IH]; [split; reflexivity|].
  cbn [forallb filter].
  pose proof (filter_length_le isValid l).
  destruct (isValid v); cbn [andb List.length].
  - rewrite IH. split; [congruence | intro E; now inversion E].
  - split; [discriminate | lia].
Qed.

Lemma minutes_of_all_rows_bounds (rows : list LogbookEntry) :
  0 <= minutes_of_all_rows rows <= 1439 * Z.of_nat (List.length rows).
Proof.
  induction rows as [|e rows IH]; [cbn; lia|].
  cbn [minutes_of_all_rows fold_right List.length].
  fold (minutes_of_all_rows rows).
  rewrite Nat2Z.inj_succ.
  destruct (minutes_between e) as [d|] eqn:M; cbn [or_zero]; [|lia].
  pose proof (minutes_between_bounds e d M). lia.
Qed.

(** X11.  The page total is never negative and never more than 1439 minutes per
    row. *)
Theorem page_total_bounds (h : host) (x : ExtractionResult) :
  0 <= totalMinutes (totals (validateEntries h x))
    <= 1439 * Z.of_nat (List.length (x_entries x)).
Proof.
  rewrite page_total_is_minutes_of_all_rows.
  apply minutes_of_all_rows_bounds.
Qed.

(** *** The valid rows of a page *)


(** *** Page total and cumulative minutes *)

Lemma sum_durations_from (l : list ValidatedEntry) :
  forall acc,
    fold_left (fun sum e => sum + duration_or_zero e) l acc
    = acc + sum_durations l.
Proof.
  unfold sum_durations.
  induction l as [|v l IH]; intro acc; [cbn; lia|].
  cbn [fold_left]. rewrite IH.
  rewrite (IH (0 + _)). unfold duration_or_zero. lia.
Qed.

Lemma sum_durations_cons (v : ValidatedEntry) (l : list ValidatedEntry) :
  sum_durations (v :: l) = duration_or_zero v + sum_durations l.
Proof.
  unfold sum_durations at 1. cbn [fold_left].
  change (fold_left _ l ?a)
    with (fold_left (fun sum e => sum + duration_or_zero e) l a).
  rewrite sum_durations_from. unfold duration_or_zero. lia.
Qed.

Lemma duration_or_zero_nonneg (tza today : Z) (e : LogbookEntry) (total : Z) :
  0 <= duration_or_zero (fst (validateEntry tza today e total)).
Proof.
  destruct (validateEntry_values tza today e total) as (_ & _ & D & _ & _).
  unfold duration_or_zero. rewrite D.
  unfold js_or at 2.
  destruct (minutes_between e) as [cd|] eqn:M.
  - pose proof (minutes_between_bounds e cd M).
    cbn [truthy_int]. destruct (Z.eqb_spec cd 0); cbn [negb].
    + destruct (parseDuration (totalTime e)) as [r|] eqn:P.
      * pose proof (parseDuration_nonneg _ _ P).
        unfold js_or, truthy_int. destruct (Z.eqb_spec r 0); cbn [negb]; lia.
      * cbn. lia.
    + unfold js_or, truthy_int. destruct (Z.eqb_spec cd 0); cbn [negb]; lia.
  - cbn [truthy_int].
    destruct (parseDuration (totalTime e)) as [r|] eqn:P.
    + pose proof (parseDuration_nonneg _ _ P).
      unfold js_or, truthy_int. destruct (Z.eqb_spec r 0); cbn [negb]; lia.
    + cbn. lia.
Qed.

(** X13.  When every row of a page is valid and has a computed duration, the
    minutes that [calculateCumulativeHours] counts for the page are the page
    total of [validateEntries]. *)
Theorem page_total_reconciles_when_all_rows_valid
  (h : host) (x : ExtractionResult) :
  forallb isValid (entries (validateEntries h x)) = true ->
  (forall v, In v (entries (validateEntries h x)) ->
             calculatedDuration v <> None) ->
  sum_durations (filter isValid (entries (validateEntries h x)))
  = totalMinutes (totals (validateEntries h x)).
Proof.
  rewrite page_total_is_minutes_of_all_rows, entries_validateEntries.
  generalize (x_entries x). intro rows.
  induction rows as [|e rows IH]; [reflexivity|].
  cbn [map forallb filter minutes_of_all_rows fold_right].
  fold (minutes_of_all_rows rows).
  intros Hall Hcd. apply andb_true_iff in Hall. destruct Hall as [Hv Hall].
  rewrite Hv, sum_durations_cons.
  rewrite IH; [|exact Hall | intros v Hin; apply Hcd; now right].
  f_equal.
  specialize (Hcd (validated_row h e) (or_introl eq_refl)).
  unfold validated_row in *.
  pose proof (valid_row_has_spec_duration _ _ _ _ Hv) as Hd.
  destruct (validateEntry_values
              (LocalTZA h) (setHours_end_of_day (LocalTZA h) (now h)) e 0)
    as (_ & C & _).
  unfold duration_or_zero. rewrite Hd. unfold spec_durationMinutes.
  rewrite C in *.
  destruct (minutes_between e) as [cd|]; [|now elim Hcd].
  cbn [or_zero]. unfold js_or, truthy_int.
  destruct (Z.eqb_spec cd 0); cbn [negb]; [subst; reflexivity | reflexivity].
Qed.

Lemma page_total_reconciles_when_all_rows_valid_witness :
  sum_durations
    (filter isValid
       (entries (validateEntries brisbane
                   (page "BLUE_DAY" [row_ok; row_two_hours]))))
  = totalMinutes
      (totals (validateEntries brisbane
                 (page "BLUE_DAY" [row_ok; row_two_hours]))).
Proof.
  apply page_total_reconciles_when_all_rows_valid.
  - reflexivity.
  - intros v Hin. vm_compute in Hin.
    destruct Hin as [<-|[<-|[]]]; discriminate.
Defined.

End PageFacts.

(** ** All pages: cumulative hours *)

Module CumulativeFacts.

Import JSString JSDate Scanner Spec Rules RationalTests RowProps PageProps ParserProps ParserFacts RowFacts PageFacts.
Open Scope string_scope.
Open Scope Z_scope.

Lemma cum_step_fields (t : cumstate) (scan : PageScanResult) :
  blueDayMinutes (cum_step t scan)
  = blueDayMinutes t + minutes_of_type "BLUE_DAY" [scan]
  /\ redNightMinutes (cum_step t scan)
     = redNightMinutes t + minutes_of_type "RED_NIGHT" [scan]
  /\ allEntries (cum_step t scan) = (allEntries t ++ entries scan)%list
  /\ c_errorCount (cum_step t scan)
     = (c_errorCount t + List.length (scan_errors scan))%nat
  /\ c_warningCount (cum_step t scan)
     = (c_warningCount t + List.length (scan_warnings scan))%nat.
Proof.
  unfold cum_step, minutes_of_type. cbn [fold_right].
  destruct (pageType scan) as [k|]; cbn [str_is orb];
    [|cbn; repeat split; lia].
  destruct (String.eqb_spec k "BLUE_DAY") as [->|_];
    [cbn; repeat split; lia|].
  destruct (String.eqb_spec k "RED_NIGHT") as [->|_];
    [cbn; repeat split; lia|].
  destruct (k =? "GREEN_ADI")%string; destruct (k =? "ADI_STAMP")%string;
    cbn; repeat split; lia.
Qed.

Lemma cum_fold_fields (scans : list PageScanResult) :
  forall t,
    blueDayMinutes (fold_left cum_step scans t)
    = blueDayMinutes t + minutes_of_type "BLUE_DAY" scans
    /\ redNightMinutes (fold_left cum_step scans t)
       = redNightMinutes t + minutes_of_type "RED_NIGHT" scans
    /\ List.length (allEntries (fold_left cum_step scans t))
       = (List.length (allEntries t) + count_entries scans)%nat
    /\ c_errorCount (fold_left cum_step scans t)
       = (c_errorCount t + count_errors scans)%nat
    /\ c_warningCount (fold_left cum_step scans t)
       = (c_warningCount t + count_warnings scans)%nat.
Proof.
  induction scans as [|scan scans IH]; intro t.
  - cbn. repeat split; lia.
  - cbn [fold_left].
    destruct (IH (cum_step t scan)) as (B & R & E & Er & W).
    destruct (cum_step_fields t scan) as (B1 & R1 & E1 & Er1 & W1).
    rewrite B, R, E, Er, W, B1, R1, E1, Er1, W1, length_app.
    unfold minutes_of_type, count_entries, count_errors, count_warnings.
    cbn [fold_right]. repeat split; lia.
Qed.

Lemma cumulative_closed_form (scans : list PageScanResult) :
  calculateCumulativeHours scans
  = hours_of_minutes
      (minutes_of_type "BLUE_DAY" scans) (minutes_of_type "RED_NIGHT" scans)
      (professional_actual_minutes scans)
      (count_entries scans) (count_errors scans) (count_warnings scans).
Proof.
  unfold calculateCumulativeHours, hours_of_minutes.
  destruct (cum_fold_fields scans cum_init) as (B & R & E & Er & W).
  rewrite B, R, E, Er, W, cum_fold_green. reflexivity.
Qed.

(** *** The order of the pages *)

Lemma minutes_of_type_perm (k : string) (a b : list PageScanResult) :
  Permutation a b -> minutes_of_type k a = minutes_of_type k b.
Proof.
  unfold minutes_of_type.
  induction 1; cbn [fold_right]; try lia.
Qed.

Lemma professional_minutes_perm (a b : list PageScanResult) :
  Permutation a b ->
  professional_actual_minutes a = professional_actual_minutes b.
Proof.
  unfold professional_actual_minutes.
  induction 1; cbn [fold_right]; try lia.
Qed.

Lemma counts_perm (a b : list PageScanResult) :
  Permutation a b ->
  count_entries a = count_entries b /\ count_errors a = count_errors b
  /\ count_warnings a = count_warnings b.
Proof.
  unfold count_entries, count_errors, count_warnings.
  induction 1; cbn [fold_right]; repeat split; lia.
Qed.

(** X14.  The cumulative hours do not depend on the order in which the pages are
    given. *)
Theorem cumulative_hours_ignore_page_order (a b : list PageScanResult) :
  Permutation a b ->
  calculateCumulativeHours a = calculateCumulativeHours b.
Proof.
  intro P. rewrite !cumulative_closed_form.
  rewrite (minutes_of_type_perm _ _ _ P), (minutes_of_type_perm _ _ _ P),
    (professional_minutes_perm _ _ P).
  destruct (counts_perm _ _ P) as (-> & -> & ->). reflexivity.
Qed.

Lemma cumulative_hours_ignore_page_order_witness :
  calculateCumulativeHours
    [validateEntries brisbane (page "BLUE_DAY" [row_ok]);
     validateEntries brisbane (page "GREEN_ADI" [row_two_hours])]
  = calculateCumulativeHours
      [validateEntries brisbane (page "GREEN_ADI" [row_two_hours]);
       validateEntries brisbane (page "BLUE_DAY" [row_ok])].
Proof.
  apply cumulative_hours_ignore_page_order. apply perm_swap.
Defined.

(** *** Hours as minutes over 60 *)

Lemma hours_le (a b : Z) : (inject_Z a / 60 <= inject_Z b / 60)%Q <-> a <= b.
Proof. unfold Qle, Qdiv, Qmult, Qinv, inject_Z. cbn. lia. Qed.

Lemma hours_eq (a b : Z) : (inject_Z a / 60 == inject_Z b / 60)%Q <-> a = b.
Proof. unfold Qeq, Qdiv, Qmult, Qinv, inject_Z. cbn. lia. Qed.

Lemma hours_add (a b : Z) :
  (inject_Z (a + b) / 60 == inject_Z a / 60 + inject_Z b / 60)%Q.
Proof. rewrite inject_Z_plus. field. Qed.

Lemma ten_hours : (10 == inject_Z 600 / 60)%Q.
Proof. reflexivity. Qed.

Lemma zero_hours : (0 == inject_Z 0 / 60)%Q.
Proof. reflexivity. Qed.

Lemma first_tier_in_minutes (g : Z) :
  (Qmin (inject_Z g / 60) 10 * 3 == inject_Z (Z.min g 600 * 3) / 60)%Q.
Proof.
  destruct (Z.le_gt_cases g 600) as [H|H].
  - assert (inject_Z g / 60 <= 10)%Q as L
      by (rewrite ten_hours; now apply hours_le).
    rewrite (Q.min_l _ _ L), Z.min_l by lia.
    rewrite inject_Z_mult. field.
  - assert (10 <= inject_Z g / 60)%Q as L
      by (rewrite ten_hours; apply hours_le; lia).
    rewrite (Q.min_r _ _ L), Z.min_r by lia.
    reflexivity.
Qed.

Lemma excess_in_minutes (g : Z) :
  (Qmax 0 (inject_Z g / 60 - 10) == inject_Z (Z.max 0 (g - 600)) / 60)%Q.
Proof.
  assert (inject_Z g / 60 - 10 == inject_Z (g - 600) / 60)%Q as E.
  { unfold Z.sub. rewrite inject_Z_plus, inject_Z_opp. field. }
  rewrite E.
  destruct (Z.le_gt_cases g 600) as [H|H].
  - assert (inject_Z (g - 600) / 60 <= 0)%Q as L
      by (rewrite zero_hours; apply hours_le; lia).
    rewrite (Q.max_l _ _ L), Z.max_l by lia.
    reflexivity.
  - assert (0 <= inject_Z (g - 600) / 60)%Q as L
      by (rewrite zero_hours; apply hours_le; lia).
    rewrite (Q.max_r _ _ L), Z.max_r by lia.
    reflexivity.
Qed.

Lemma credit_in_minutes (scans : list PageScanResult) :
  (creditHours (adi (calculateCumulativeHours scans))
   == inject_Z (credit_minutes (professional_actual_minutes scans)) / 60)%Q.
Proof.
  rewrite cumulative_closed_form. cbn [hours_of_minutes adi creditHours].
  rewrite first_tier_in_minutes, excess_in_minutes.
  unfold credit_minutes. now rewrite hours_add.
Qed.

Lemma credit_at_least_actual (scans : list PageScanResult) :
  0 <= professional_actual_minutes scans ->
  (adi_actualHours (adi (calculateCumulativeHours scans))
   <= creditHours (adi (calculateCumulativeHours scans)))%Q.
Proof.
  intro Hg. rewrite credit_in_minutes, actual_hours_from_minutes.
  apply hours_le. unfold credit_minutes. lia.
Qed.

(** *** Bounds of the professional credit *)

(** X15.  For professional minutes that are not negative, the professional credit
    lies between the actual hours and three times the actual hours and
    exceeds the actual hours by at most 20; it is three times the actual
    hours up to 10 hours and the actual hours plus 20 from there on. *)
Theorem professional_credit_bounds (scans : list PageScanResult) :
  0 <= professional_actual_minutes scans ->
  let c := adi (calculateCumulativeHours scans) in
  (adi_actualHours c <= creditHours c)%Q
  /\ (creditHours c <= adi_actualHours c * 3)%Q
  /\ (creditHours c <= adi_actualHours c + 20)%Q
  /\ ((adi_actualHours c <= 10)%Q -> (creditHours c == adi_actualHours c * 3)%Q)
  /\ ((10 <= adi_actualHours c)%Q ->
      (creditHours c == adi_actualHours c + 20)%Q).
Proof.
  intro Hg. cbv zeta.
  rewrite credit_in_minutes, actual_hours_from_minutes.
  set (g := professional_actual_minutes scans) in *.
  assert (inject_Z g / 60 * 3 == inject_Z (g * 3) / 60)%Q as E3
    by (rewrite inject_Z_mult; field).
  assert (inject_Z g / 60 + 20 == inject_Z (g + 1200) / 60)%Q as E20
    by (rewrite inject_Z_plus; field).
  rewrite E3, E20, ten_hours.
  rewrite !hours_le, !hours_eq. unfold credit_minutes. lia.
Qed.

Lemma professional_credit_bounds_witness :
  (creditHours (adi (calculateCumulativeHours twelve_professional_hours))
   <= adi_actualHours (adi (calculateCumulativeHours twelve_professional_hours))
      + 20)%Q.
Proof.
  destruct (professional_credit_bounds twelve_professional_hours)
    as (_ & _ & H & _).
  - vm_compute. discriminate.
  - exact H.
Defined.

(* The grand totals: the actual hours are day, night and professional
   hours together; the credited hours are the supervised hours and the
   professional credit together. *)
Lemma grand_totals_add_up (scans : list PageScanResult) :
  let c := calculateCumulativeHours scans in
  (sup_totalHours (supervised c)
   == dayHours (supervised c) + nightHours (supervised c))%Q
  /\ (actualHours (grandTotal c)
      == dayHours (supervised c) + nightHours (supervised c)
         + adi_actualHours (adi c))%Q
  /\ (creditedHours (grandTotal c)
      == sup_totalHours (supervised c) + creditHours (adi c))%Q
  /\ (creditedHours (grandTotal c) - actualHours (grandTotal c)
      == creditHours (adi c) - adi_actualHours (adi c))%Q.
Proof.
  cbv zeta. rewrite cumulative_closed_form.
  cbn [hours_of_minutes supervised adi grandTotal sup_totalHours dayHours
       nightHours actualHours creditedHours adi_actualHours creditHours].
  rewrite !inject_Z_plus.
  repeat split; field.
Qed.

(** *** Pages scanned in batches *)






(** *** Invalid rows *)

Lemma filter_idem {A} (f : A -> bool) (l : list A) :
  filter f (filter f l) = filter f l.
Proof.
  induction l as [|a l IH]; [reflexivity|].
  cbn [filter]. destruct (f a) eqn:E; [|exact IH].
  cbn [filter]. now rewrite E, IH.
Qed.

Lemma minutes_of_type_without_invalid (k : string) (scans : list PageScanResult) :
  minutes_of_type k (map without_invalid_rows scans) = minutes_of_type k scans.
Proof.
  unfold minutes_of_type.
  induction scans as [|s scans IH]; [reflexivity|].
  cbn [map fold_right]. rewrite IH.
  cbn [without_invalid_rows pageType entries]. now rewrite filter_idem.
Qed.

Lemma professional_minutes_without_invalid (scans : list PageScanResult) :
  professional_actual_minutes (map without_invalid_rows scans)
  = professional_actual_minutes scans.
Proof.
  unfold professional_actual_minutes.
  induction scans as [|s scans IH]; [reflexivity|].
  cbn [map fold_right]. rewrite IH.
  cbn [without_invalid_rows pageType entries]. now rewrite filter_idem.
Qed.

(** X17.  Invalid rows count for nothing in the hours: with the invalid rows
    taken out of every page, the supervised hours, the professional hours
    and credit and the grand totals are the same. *)
Theorem invalid_rows_earn_no_hours (scans : list PageScanResult) :
  let c := calculateCumulativeHours scans in
  let c' := calculateCumulativeHours (map without_invalid_rows scans) in
  supervised c' = supervised c /\ adi c' = adi c
  /\ grandTotal c' = grandTotal c.
Proof.
  cbv zeta. rewrite !cumulative_closed_form.
  rewrite !minutes_of_type_without_invalid,
    professional_minutes_without_invalid.
  repeat split.
Qed.

(** *** Pages that come out of the validation *)

Lemma sum_durations_nonneg (l : list ValidatedEntry) :
  Forall (fun v => 0 <= duration_or_zero v) l -> 0 <= sum_durations l.
Proof.
  induction 1 as [|v l Hv Hl IH]; [cbn; lia|].
  rewrite sum_durations_cons. lia.
Qed.

Lemma validated_page_minutes_nonneg (scan : PageScanResult) :
  from_validation scan ->
  0 <= sum_durations (filter isValid (entries scan)).
Proof.
  intros (h & x & ->). apply sum_durations_nonneg.
  rewrite entries_validateEntries.
  apply Forall_forall. intros v Hin.
  apply filter_In in Hin. destruct Hin as [Hin _].
  apply in_map_iff in Hin. destruct Hin as (e & <- & _).
  apply duration_or_zero_nonneg.
Qed.

Lemma validated_minutes_nonneg (scans : list PageScanResult) :
  Forall from_validation scans ->
  (forall k, 0 <= minutes_of_type k scans)
  /\ 0 <= professional_actual_minutes scans.
Proof.
  unfold minutes_of_type, professional_actual_minutes.
  induction 1 as [|s scans Hs Hl IH]; [cbn; split; [intro|]; lia|].
  destruct IH as [IHk IHp].
  pose proof (validated_page_minutes_nonneg s Hs).
  cbn [fold_right]. split.
  - intro k. specialize (IHk k). destruct (str_is (pageType s) k); lia.
  - destruct (str_is (pageType s) "GREEN_ADI" || str_is (pageType s) "ADI_STAMP");
      lia.
Qed.

(** X18.  For pages that come out of [validateEntries], no hours are negative,
    and the credited hours are at least the actual hours. *)
Theorem validated_pages_give_nonnegative_hours (scans : list PageScanResult) :
  Forall from_validation scans ->
  let c := calculateCumulativeHours scans in
  (0 <= dayHours (supervised c))%Q /\ (0 <= nightHours (supervised c))%Q
  /\ (0 <= adi_actualHours (adi c))%Q
  /\ (adi_actualHours (adi c) <= creditHours (adi c))%Q
  /\ (actualHours (grandTotal c) <= creditedHours (grandTotal c))%Q.
Proof.
  intro H. cbv zeta.
  destruct (validated_minutes_nonneg scans H) as [Hk Hp].
  pose proof (credit_at_least_actual scans Hp) as Hc.
  destruct (grand_totals_add_up scans) as (_ & _ & _ & Hd).
  pose proof (Hk "BLUE_DAY") as Hb. pose proof (Hk "RED_NIGHT") as Hr.
  split; [|split; [|split; [|split; [exact Hc|]]]].
  4: { apply Qle_minus_iff. rewrite Hd. apply -> Qle_minus_iff. exact Hc. }
  all: rewrite cumulative_closed_form;
    cbn [hours_of_minutes supervised adi dayHours nightHours adi_actualHours];
    rewrite zero_hours; now apply hours_le.
Qed.

Lemma validated_pages_give_nonnegative_hours_witness :
  (adi_actualHours (adi (calculateCumulativeHours twelve_professional_hours))
   <= creditHours (adi (calculateCumulativeHours twelve_professional_hours)))%Q.
Proof.
  destruct (validated_pages_give_nonnegative_hours twelve_professional_hours)
    as (_ & _ & _ & H & _).
  - repeat constructor. eexists. eexists. reflexivity.
  - exact H.
Defined.

(** *** Pages of an unknown type *)

(** X19.  The minutes of a page whose type is none of the four count in no
    bucket: such a page alone gives 0 day, night and professional hours,
    while its rows and errors are counted all the same. *)
Theorem unknown_page_type_counts_nowhere (h : host) (x : ExtractionResult) :
  pageTypes (x_pageType x) = None ->
  let r := validateEntries h x in
  let c := calculateCumulativeHours [r] in
  (dayHours (supervised c) == 0)%Q /\ (nightHours (supervised c) == 0)%Q
  /\ (adi_actualHours (adi c) == 0)%Q
  /\ totalEntries (validation c) = List.length (x_entries x)
  /\ errorCount (validation c) = List.length (scan_errors r).
Proof.
  intro Hk. cbv zeta.
  assert (pageType (validateEntries h x) = x_pageType x) as Hp by reflexivity.
  assert (str_is (x_pageType x) "BLUE_DAY" = false
          /\ str_is (x_pageType x) "RED_NIGHT" = false
          /\ str_is (x_pageType x) "GREEN_ADI" = false
          /\ str_is (x_pageType x) "ADI_STAMP" = false) as (B & R & G & S).
  { unfold pageTypes in Hk.
    destruct (str_is (x_pageType x) "BLUE_DAY"); [discriminate|].
    destruct (str_is (x_pageType x) "RED_NIGHT"); [discriminate|].
    destruct (str_is (x_pageType x) "GREEN_ADI"); [discriminate|].
    destruct (str_is (x_pageType x) "ADI_STAMP"); [discriminate|].
    repeat split. }
  rewrite cumulative_closed_form.
  cbn [hours_of_minutes supervised adi validation dayHours nightHours
       adi_actualHours totalEntries errorCount].
  unfold minutes_of_type, professional_actual_minutes, count_entries,
    count_errors.
  cbn [fold_right]. rewrite Hp, B, R, G, S. cbn [orb].
  rewrite entries_validateEntries, length_map, !Nat.add_0_r.
  repeat split; reflexivity.
Qed.

Lemma unknown_page_type_counts_nowhere_witness :
  (dayHours
     (supervised
        (calculateCumulativeHours
           [validateEntries brisbane (page "YELLOW" [row_ok])])) == 0)%Q.
Proof.
  destruct (unknown_page_type_counts_nowhere brisbane (page "YELLOW" [row_ok]))
    as (A & _); [reflexivity|].
  exact A.
Defined.

End CumulativeFacts.

(** ** The eligibility trigger *)

Module EligibilityFacts.

Import Eligibility EligibilitySamples EligibilityRules RationalTests EligibilityProps.
Open Scope Z_scope.

(** *** The status *)




(** *** The remaining hours *)


(** *** Running the trigger again *)

(** X23.  The trigger run on the row it returned, in the same session, returns
    that row again. *)
Theorem calculate_eligibility_idempotent (s : session) (NEW : students) :
  calculate_eligibility s (calculate_eligibility s NEW)
  = calculate_eligibility s NEW.
Proof.
  unfold calculate_eligibility, calculate_eligibility_body.
  cbn [fst date_of_birth licence_expiry_date licence_issue_date age_at_issue
       pathway supervised_hours professional_hours night_hours
       safer_driver_credit vru_credit first_aid_credit total_hours
       hours_required hours_remaining cbta_completed
       assessment_1_22_completed tenure_start_date tenure_months_required
       earliest_eligible_date status final_drive_completed_at
       data_retention_until updated_at].
  destruct (date_of_birth NEW) as [dob|],
    (licence_expiry_date NEW) as [expiry|],
    (licence_issue_date NEW) as [issue|],
    (tenure_start_date NEW) as [start|],
    (final_drive_completed_at NEW) as [done|],
    (data_retention_until NEW) as [keep|];
    reflexivity.
Qed.

(** *** Ages and dates *)

Lemma date_lt_spec (a b : sqldate) :
  date_lt a b = true
  <-> year a < year b
      \/ (year a = year b
          /\ (month a < month b \/ (month a = month b /\ day a < day b))).
Proof.
  unfold date_lt.
  rewrite !orb_true_iff, !andb_true_iff, !orb_true_iff, !andb_true_iff,
    !Z.ltb_lt, !Z.eqb_eq.
  tauto.
Qed.

(* The age between two dates is the number of completed years; it is
   negative when the dates are the other way round. *)
Lemma age_years_completed (later earlier : sqldate) :
  (date_lt later earlier = false ->
   age_years later earlier
   = year later - year earlier
     - (if (month later <? month earlier)
           || ((month later =? month earlier) && (day later <? day earlier))
        then 1 else 0)
   /\ 0 <= age_years later earlier)
  /\ age_years earlier later = - age_years later earlier.
Proof.
  split.
  - intro H. unfold age_years. rewrite H. cbv beta zeta iota.
    assert (~ (year later < year earlier
               \/ (year later = year earlier
                   /\ (month later < month earlier
                       \/ (month later = month earlier
                           /\ day later < day earlier))))) as N.
    { rewrite <- date_lt_spec. congruence. }
    destruct (Z.ltb_spec (day later - day earlier) 0);
    destruct (Z.ltb_spec (month later) (month earlier));
    destruct (Z.eqb_spec (month later) (month earlier));
    destruct (Z.ltb_spec (day later) (day earlier));
    cbn [orb andb];
    repeat (match goal with
            | |- context [?a <? 0] =>
                lazymatch a with
                | context [if _ then _ else _] => fail
                | _ => destruct (Z.ltb_spec a 0)
                end
            end; cbv beta iota); lia.
  - unfold age_years.
    destruct (date_lt earlier later) eqn:A;
      destruct (date_lt later earlier) eqn:B; cbv beta zeta iota.
    + apply date_lt_spec in A. apply date_lt_spec in B. lia.
    + repeat (match goal with
              | |- context [?a <? 0] =>
                lazymatch a with
                | context [if _ then _ else _] => fail
                | _ => destruct (Z.ltb_spec a 0)
                end
              end; cbv beta iota); lia.
    + repeat (match goal with
              | |- context [?a <? 0] =>
                lazymatch a with
                | context [if _ then _ else _] => fail
                | _ => destruct (Z.ltb_spec a 0)
                end
              end; cbv beta iota); lia.
    + assert (~ (year earlier < year later
                 \/ (year earlier = year later
                     /\ (month earlier < month later
                         \/ (month earlier = month later
                             /\ day earlier < day later))))) as NA
        by (rewrite <- date_lt_spec; congruence).
      assert (~ (year later < year earlier
                 \/ (year later = year earlier
                     /\ (month later < month earlier
                         \/ (month later = month earlier
                             /\ day later < day earlier))))) as NB
        by (rewrite <- date_lt_spec; congruence).
      repeat (match goal with
              | |- context [?a <? 0] =>
                lazymatch a with
                | context [if _ then _ else _] => fail
                | _ => destruct (Z.ltb_spec a 0)
                end
              end; cbv beta iota); lia.
Qed.

Lemma day_tab_bounds (leap : bool) (m : Z) : 28 <= day_tab leap m <= 31.
Proof.
  unfold day_tab. destruct leap;
  repeat match goal with
         | |- context [match ?x with _ => _ end] => destruct x
         end; lia.
Qed.

(** X24.  Adding months to a calendar date gives a calendar date: year and month
    move by exactly the number of months added, and the day stays or, where
    the new month is shorter, becomes its last day. *)
Theorem add_months_is_calendar_arithmetic (d : sqldate) (n : Z) :
  valid_date d ->
  valid_date (add_months d n)
  /\ year (add_months d n) * 12 + month (add_months d n)
     = year d * 12 + month d + n
  /\ day (add_months d n)
     = Z.min (day d)
             (day_tab (isleap (year (add_months d n))) (month (add_months d n))).
Proof.
  intros [Hm Hd]. unfold add_months, valid_date.
  cbn [year month day].
  set (total := month d - 1 + n).
  set (y := year d + total / 12). set (m := total mod 12 + 1).
  pose proof (day_tab_bounds (isleap y) m) as B.
  pose proof (Z.mod_pos_bound total 12 ltac:(lia)) as Hmod.
  pose proof (Z.div_mod total 12 ltac:(lia)) as Hdiv.
  split; [|split].
  - split; [lia|]. destruct (Z.gtb_spec (day d) (day_tab (isleap y) m)); lia.
  - unfold y, m. lia.
  - destruct (Z.gtb_spec (day d) (day_tab (isleap y) m)); lia.
Qed.

Lemma add_months_is_calendar_arithmetic_witness :
  add_months (ymd 2024 11 30) 3 = ymd 2025 2 28
  /\ valid_date (add_months (ymd 2024 11 30) 3).
Proof.
  split; [reflexivity|].
  apply (add_months_is_calendar_arithmetic (ymd 2024 11 30) 3).
  unfold valid_date. cbn. lia.
Defined.

(** X25.  With a tenure start in the row and a pathway determined, the earliest
    eligible date is the start plus 12 months on the red and 6 on the green
    pathway, whatever months were stored, and lies after the start. *)
Theorem earliest_eligible_date_from_pathway
  (s : session) (NEW : students) (start : sqldate) (p : pathway_type) :
  tenure_start_date NEW = Some start ->
  v_is_under_25 (snd (calculate_eligibility_body s NEW)) <> None ->
  pathway (calculate_eligibility s NEW) = Some p ->
  1 <= month start <= 12 ->
  earliest_eligible_date (calculate_eligibility s NEW)
  = Some (add_months start (match p with P1_RED => 12 | P2_GREEN => 6 end))
  /\ date_lt start
       (add_months start (match p with P1_RED => 12 | P2_GREEN => 6 end))
     = true.
Proof.
  intros Hs Hu Hp Hm.
  destruct (pathway_requirements s NEW p Hu Hp) as (_ & _ & Ht).
  split.
  - revert Ht. unfold calculate_eligibility, calculate_eligibility_body.
    cbn [fst tenure_months_required earliest_eligible_date].
    intros ->. now rewrite Hs.
  - apply date_lt_spec. unfold add_months. cbn [year month day].
    destruct p.
    + pose proof (Z.mod_pos_bound (month start - 1 + 12) 12 ltac:(lia)).
      pose proof (Z.div_mod (month start - 1 + 12) 12 ltac:(lia)). lia.
    + pose proof (Z.mod_pos_bound (month start - 1 + 6) 12 ltac:(lia)).
      pose proof (Z.div_mod (month start - 1 + 6) 12 ltac:(lia)). lia.
Qed.

Lemma earliest_eligible_date_from_pathway_witness :
  earliest_eligible_date
    (calculate_eligibility first_of_november_2026 (learner 100 0 10))
  = Some (ymd 2026 10 1).
Proof.
  exact (proj1 (earliest_eligible_date_from_pathway
                  first_of_november_2026 (learner 100 0 10)
                  (ymd 2025 10 1) P1_RED eq_refl
                  ltac:(discriminate) eq_refl ltac:(cbn; lia))).
Defined.

Lemma Qle_bool_right (r a b : Q) : (a == b)%Q -> Qle_bool r a = Qle_bool r b.
Proof.
  intro E. destruct (Qle_bool r a) eqn:A; destruct (Qle_bool r b) eqn:B;
    try reflexivity.
  - apply Qle_bool_iff in A. rewrite E in A. apply Qle_bool_iff in A.
    congruence.
  - apply Qle_bool_iff in B. rewrite <- E in B. apply Qle_bool_iff in B.
    congruence.
Qed.

(** X26.  Professional hours beyond 10 earn nothing in the trigger: with 10 or
    more professional hours the professional credit is 30, and the credited
    hours and the status are those of exactly 10 professional hours. *)
Theorem professional_hours_beyond_ten_earn_nothing
  (s : session) (NEW : students) (p : Q) :
  (10 <= p)%Q ->
  let more := with_professional_hours (Some p) NEW in
  let ten := with_professional_hours (Some 10%Q) NEW in
  (v_prof_credit (snd (calculate_eligibility_body s more)) == 30)%Q
  /\ (v_total_hrs (snd (calculate_eligibility_body s more))
      == v_total_hrs (snd (calculate_eligibility_body s ten)))%Q
  /\ status (calculate_eligibility s more)
     = status (calculate_eligibility s ten).
Proof.
  intro Hp. cbv zeta.
  assert (Qmin p 10 * 3 == 30)%Q as E30
    by (rewrite (Q.min_r _ _ Hp); reflexivity).
  unfold calculate_eligibility, calculate_eligibility_body,
    with_professional_hours.
  cbn [fst snd v_prof_credit v_total_hrs status
       date_of_birth licence_expiry_date licence_issue_date age_at_issue
       pathway supervised_hours professional_hours night_hours
       safer_driver_credit vru_credit first_aid_credit total_hours
       hours_required hours_remaining cbta_completed
       assessment_1_22_completed tenure_start_date tenure_months_required
       earliest_eligible_date final_drive_completed_at
       data_retention_until updated_at COALESCE].
  split; [exact E30|].
  assert (Qmin p 10 * 3 + COALESCE (supervised_hours NEW) 0
          + credit (safer_driver_credit NEW) 20
          + credit (vru_credit NEW) 10 + credit (first_aid_credit NEW) 5
          == Qmin 10 10 * 3 + COALESCE (supervised_hours NEW) 0
             + credit (safer_driver_credit NEW) 20
             + credit (vru_credit NEW) 10 + credit (first_aid_credit NEW) 5)%Q
    as Et by (rewrite E30; reflexivity).
  split; [exact Et|].
  unfold Qltb. rewrite (Qle_bool_right _ _ _ Et). reflexivity.
Qed.

Lemma professional_hours_beyond_ten_earn_nothing_witness :
  status (calculate_eligibility first_of_november_2026
            (with_professional_hours (Some 25%Q) (learner 60 0 10)))
  = status (calculate_eligibility first_of_november_2026
              (with_professional_hours (Some 10%Q) (learner 60 0 10))).
Proof.
  apply (professional_hours_beyond_ten_earn_nothing
           first_of_november_2026 (learner 60 0 10) 25).
  vm_compute. discriminate.
Defined.

(** X27.  The age the trigger stores is the number of completed years from the
    date of birth to the issue date, and the pathway is red exactly when
    that is below 25. *)
Theorem age_at_issue_is_completed_years
  (s : session) (NEW : students) (dob issue : sqldate) :
  date_of_birth NEW = Some dob ->
  licence_issue_date (calculate_eligibility s NEW) = Some issue ->
  date_lt issue dob = false ->
  let years :=
    year issue - year dob
    - (if (month issue <? month dob)
          || ((month issue =? month dob) && (day issue <? day dob))
       then 1 else 0) in
  age_at_issue (calculate_eligibility s NEW) = Some years
  /\ 0 <= years
  /\ pathway (calculate_eligibility s NEW)
     = Some (if years <? 25 then P1_RED else P2_GREEN)
  /\ hours_required (calculate_eligibility s NEW)
     = Some (if years <? 25 then 100 else 50).
Proof.
  intros Hdob Hissue Hlt. cbv zeta.
  destruct (age_years_completed issue dob) as [Hage _].
  destruct (Hage Hlt) as [<- Hpos]. clear Hage.
  revert Hissue. unfold calculate_eligibility, calculate_eligibility_body.
  cbn [fst licence_issue_date age_at_issue pathway hours_required].
  rewrite Hdob. intros ->. cbn [option_map].
  repeat split; try assumption; now destruct (age_years issue dob <? 25).
Qed.

Lemma age_at_issue_is_completed_years_witness :
  age_at_issue (calculate_eligibility first_of_november_2026 (learner 100 0 10))
  = Some 20.
Proof.
  exact (proj1 (age_at_issue_is_completed_years
                  first_of_november_2026 (learner 100 0 10)
                  (ymd 2005 6 15) (ymd 2025 9 1) eq_refl eq_refl eq_refl)).
Defined.

End EligibilityFacts.

(** ** Text handling around the extraction call *)

Module ScannerIOProps.

Import JSString ScannerIO Rules.
Open Scope string_scope.

(** *** The JSON object in the reply *)

Lemma from_first_open_some (s t : string) :
  from_first_open s = Some t ->
  exists pre rest,
    s = pre ++ t /\ t = String "{" rest /\ has_char "{" pre = false.
Proof.
  revert t. induction s as [|c s IH]; intro t; [discriminate|].
  cbn [from_first_open]. destruct (Ascii.eqb c "{") eqn:E.
  - intro H. inversion H. subst t. apply Ascii.eqb_eq in E. subst c.
    exists "", s. repeat split.
  - intro H. destruct (IH t H) as (pre & rest & -> & Ht & Hp).
    exists (String c pre), rest. cbn [append has_char].
    rewrite E, Hp. repeat split. exact Ht.
Qed.

Lemma from_first_open_none (s : string) :
  from_first_open s = None <-> has_char "{" s = false.
Proof.
  induction s as [|c s IH]; [split; reflexivity|].
  cbn [from_first_open has_char].
  destruct (Ascii.eqb c "{"); cbn [orb]; [split; discriminate | exact IH].
Qed.

Lemma upto_last_close_none (s : string) :
  upto_last_close s = None <-> has_char "}" s = false.
Proof.
  induction s as [|c s IH]; [split; reflexivity|].
  cbn [upto_last_close has_char].
  destruct (upto_last_close s) as [p|].
  - split; [discriminate|]. intro H. apply orb_false_iff in H.
    destruct H as [_ H]. apply IH in H. discriminate.
  - destruct (Ascii.eqb c "}"); cbn [orb]; [split; discriminate|].
    split; [intros _; now apply IH | reflexivity].
Qed.

Lemma upto_last_close_some (s p : string) :
  upto_last_close s = Some p ->
  exists body post,
    s = p ++ post /\ p = body ++ "}" /\ has_char "}" post = false.
Proof.
  revert p. induction s as [|c s IH]; intro p; [discriminate|].
  cbn [upto_last_close].
  destruct (upto_last_close s) as [q|] eqn:E.
  - intro H. inversion H. subst p.
    destruct (IH q eq_refl) as (body & post & -> & -> & Hp).
    exists (String c body), post. repeat split. exact Hp.
  - destruct (Ascii.eqb c "}") eqn:C; [|discriminate].
    intro H. inversion H. subst p. apply Ascii.eqb_eq in C. subst c.
    exists "", s. repeat split. now apply upto_last_close_none.
Qed.

Lemma has_char_app (c : ascii) (a b : string) :
  has_char c (a ++ b) = has_char c a || has_char c b.
Proof.
  induction a as [|x a IH]; [reflexivity|].
  cbn [append has_char]. now rewrite IH, orb_assoc.
Qed.

Lemma from_first_open_app (a b : string) :
  exists a', from_first_open (a ++ String "{" b) = Some (a' ++ String "{" b).
Proof.
  induction a as [|c a IH].
  - exists "". reflexivity.
  - cbn [append from_first_open]. destruct (Ascii.eqb c "{").
    + exists (String c a). reflexivity.
    + exact IH.
Qed.

(** X28.  The text handed to [JSON.parse] runs from the first opening brace of
    the reply to its last closing brace, whatever lies between; and the
    extraction fails exactly when no opening brace has a closing brace
    after it. *)
Theorem json_object_is_first_open_to_last_close :
  (forall content j,
     match_json_object content = Some j ->
     exists pre body post,
       content = pre ++ j ++ post
       /\ j = String "{" (body ++ "}")
       /\ has_char "{" pre = false
       /\ has_char "}" post = false)
  /\ (forall content,
        match_json_object content = None
        <-> (forall a b, content = a ++ String "{" b ->
                         has_char "}" b = false)).
Proof.
  split.
  - intros content j. unfold match_json_object.
    destruct (from_first_open content) as [t|] eqn:F; [|discriminate].
    destruct (from_first_open_some _ _ F) as (pre & rest & -> & -> & Hpre).
    intro U.
    destruct (upto_last_close_some _ _ U) as (body & post & Es & -> & Hpost).
    destruct body as [|c body'].
    + cbn in Es. inversion Es.
    + cbn [append] in Es. inversion Es. subst c.
      exists pre, body', post. repeat split; assumption.
  - intro content. unfold match_json_object. split.
    + intros H a b ->.
      destruct (from_first_open_app a b) as (a' & F). rewrite F in H.
      apply upto_last_close_none in H.
      rewrite has_char_app in H. apply orb_false_iff in H.
      destruct H as [_ H]. cbn [has_char] in H.
      apply orb_false_iff in H. apply H.
    + intro H. destruct (from_first_open content) as [t|] eqn:F;
        [|reflexivity].
      destruct (from_first_open_some _ _ F) as (pre & rest & -> & -> & _).
      apply upto_last_close_none. cbn [has_char]. cbn [orb].
      apply (H pre rest eq_refl).
Qed.

Lemma json_object_is_first_open_to_last_close_witness :
  exists pre body post,
    "Reply: {a: {b: 1}} and a brace }." = pre ++ "{a: {b: 1}} and a brace }" ++ post
    /\ "{a: {b: 1}} and a brace }" = String "{" (body ++ "}")
    /\ has_char "{" pre = false /\ has_char "}" post = false.
Proof.
  apply (proj1 json_object_is_first_open_to_last_close
               "Reply: {a: {b: 1}} and a brace }.").
  reflexivity.
Defined.

(** *** Data URLs *)

Lemma split_comma_plain (p : string) :
  has_char "," p = false -> split_comma p = [p].
Proof.
  induction p as [|c p IH]; [reflexivity|].
  cbn [has_char split_comma]. intro H. apply orb_false_iff in H.
  destruct H as [Hc Hp]. now rewrite Hc, (IH Hp).
Qed.

Lemma split_comma_head (h rest : string) :
  has_char "," h = false ->
  split_comma (h ++ String "," rest) = h :: split_comma rest.
Proof.
  induction h as [|c h IH]; [reflexivity|].
  cbn [has_char append split_comma]. intro H. apply orb_false_iff in H.
  destruct H as [Hc Hp]. now rewrite Hc, (IH Hp).
Qed.

Lemma prefix_data (x : string) : String.prefix "data:" ("data:" ++ x) = true.
Proof. destruct x; reflexivity. Qed.

Lemma data_header_no_comma (x : string) :
  has_char "," ("data:" ++ x) = has_char "," x.
Proof. reflexivity. Qed.

Lemma append_assoc3 (a b c : string) : a ++ (b ++ c) = (a ++ b) ++ c.
Proof. induction a as [|x a IH]; cbn; congruence. Qed.

(** X29.  From a data URL [imageToBase64] takes the payload after the comma; a
    string that is not a data URL is taken as it is; a data URL without a
    comma gives [undefined]. *)
Theorem imageToBase64_takes_the_payload :
  (forall header payload,
     has_char "," header = false -> has_char "," payload = false ->
     imageToBase64_of_string ("data:" ++ header ++ String "," payload)
     = Some payload)
  /\ (forall image,
        String.prefix "data:" image = false ->
        imageToBase64_of_string image = Some image)
  /\ (forall rest,
        has_char "," rest = false ->
        imageToBase64_of_string ("data:" ++ rest) = None).
Proof.
  split; [|split].
  - intros header payload Hh Hp. unfold imageToBase64_of_string.
    rewrite prefix_data, append_assoc3.
    rewrite split_comma_head, (split_comma_plain payload Hp);
      [reflexivity|].
    now rewrite data_header_no_comma.
  - intros image H. unfold imageToBase64_of_string. now rewrite H.
  - intros rest H. unfold imageToBase64_of_string.
    rewrite prefix_data, split_comma_plain; [reflexivity|].
    now rewrite data_header_no_comma.
Qed.

Lemma imageToBase64_takes_the_payload_witness :
  imageToBase64_of_string "data:image/jpeg;base64,AAAA" = Some "AAAA".
Proof.
  apply (proj1 imageToBase64_takes_the_payload "image/jpeg;base64" "AAAA");
    reflexivity.
Defined.

End ScannerIOProps.

(** ** Routing of requests in the service worker *)

Module ServiceWorkerProps.

Import JSString ServiceWorker Rules.
Open Scope string_scope.

(** *** The fetch handler *)

Lemma prefix_iff (p s : string) :
  String.prefix p s = true <-> exists rest, s = p ++ rest.
Proof.
  revert s. induction p as [|a p IH]; intro s.
  - split; [intros _; now exists s | intros _; now destruct s].
  - destruct s as [|b s]; cbn [String.prefix].
    + split; [discriminate | intros (rest & H); discriminate H].
    + destruct (ascii_dec a b) as [->|N].
      * rewrite IH. split; intros (rest & H); exists rest.
        -- cbn. now f_equal.
        -- cbn in H. now inversion H.
      * split; [discriminate|]. intros (rest & H). cbn in H.
        inversion H. now elim N.
Qed.

Lemma includes_iff (s sub : string) :
  includes s sub = true <-> exists before after, s = before ++ sub ++ after.
Proof.
  induction s as [|c s IH].
  - cbn [includes]. rewrite orb_false_r, prefix_iff. split.
    + intros (rest & H). now exists "", rest.
    + intros (before & after & H). destruct before; [now exists after|].
      discriminate H.
  - cbn [includes]. rewrite orb_true_iff, prefix_iff, IH. split.
    + intros [(rest & H)|(before & after & H)].
      * now exists "", rest.
      * exists (String c before), after. cbn. now f_equal.
    + intros (before & after & H). destruct before as [|b before].
      * left. now exists after.
      * right. cbn in H. inversion H. now exists before, after.
Qed.

(** X30.  The fetch handler leaves every request that is not a GET and every
    request to a Clerk host alone; it answers requests to a Supabase host
    from the network only; and, the site root being one of the static
    assets, it answers every other GET whose URL contains a slash from the
    cache first: the two network-first branches are reached only by URLs
    without a slash. *)
Theorem fetch_routing (request : Request) :
  (method request <> "GET" -> fetch_strategy request = NotHandled)
  /\ ((exists a b, hostname request = a ++ "clerk" ++ b) ->
      fetch_strategy request = NotHandled)
  /\ (fetch_strategy request = CacheFirst ->
      method request = "GET"
      /\ includes (hostname request) "clerk" = false
      /\ includes (hostname request) "supabase" = false)
  /\ (method request = "GET" ->
      includes (hostname request) "clerk" = false ->
      includes (hostname request) "supabase" = false ->
      (exists a b, url request = a ++ "/" ++ b) ->
      fetch_strategy request = CacheFirst)
  /\ (fetch_strategy request = NetworkThenDynamicCache
      \/ fetch_strategy request = NetworkThenCache ->
      ~ exists a b, url request = a ++ "/" ++ b).
Proof.
  unfold fetch_strategy.
  destruct (String.eqb_spec (method request) "GET") as [Hm|Hm]; cbn [negb].
  2: { repeat split; try discriminate; try tauto.
       intros [H|H]; discriminate H. }
  destruct (includes (hostname request) "clerk") eqn:Hc.
  { repeat split; try discriminate; try tauto.
    intros [H|H]; discriminate H. }
  destruct (includes (hostname request) "supabase") eqn:Hs.
  { repeat split; try discriminate; try tauto.
    - intro H. apply includes_iff in H. congruence.
    - intros [H|H]; discriminate H. }
  assert ((exists a b, url request = a ++ "/" ++ b) ->
          existsb (fun asset => includes (url request) asset) STATIC_ASSETS
          = true) as Hroot.
  { intro H. apply includes_iff in H. cbn [STATIC_ASSETS existsb].
    now rewrite H. }
  repeat split; try tauto.
  - intro H. apply includes_iff in H. congruence.
  - intros _ _ _ H. now rewrite (Hroot H).
  - intros Hn Hslash. rewrite (Hroot Hslash) in Hn. cbn [orb] in Hn.
    destruct Hn as [H|H]; discriminate H.
Qed.

Lemma fetch_routing_witness :
  fetch_strategy {| method := "GET";
                    url := "https://example.org/photos/cat.png";
                    hostname := "example.org";
                    destination := "image";
                    mode := "no-cors" |}
  = CacheFirst.
Proof.
  apply (fetch_routing {| method := "GET";
                          url := "https://example.org/photos/cat.png";
                          hostname := "example.org";
                          destination := "image";
                          mode := "no-cors" |}); try reflexivity.
  exists "https:", "/example.org/photos/cat.png". reflexivity.
Defined.

End ServiceWorkerProps.
